(** * Oh Hey BooRay: the single-hand rule engine of [booray-simulation.py]

    A shallow embedding of class [OhHeyBooray] (deck, deal, OG3 evaluation,
    draw policy, trick resolution, payouts) and the properties of it that
    the specification states.

    Conventions of the embedding:
    - a Python [int] is a [Z]; [len] returns a [Z];
    - a card is the tuple [(rank, suit)], the suit being a Python [str];
    - the payouts are written as floats in the source ([-1.0], [500.0], ...);
      every one of them is a small integer, and they are kept as [Z];
    - a Python exception is a [Raise] in the [result] monad;
    - [np.random.shuffle] is a function of an explicit generator state. *)

From Stdlib Require Import ZArith List String Bool Lia Permutation.
From Stdlib Require Import DecimalString.
Import ListNotations.

Local Open Scope string_scope.
Local Open Scope list_scope.
Local Open Scope Z_scope.

(** ** Exceptions *)

Inductive exn : Type :=
| IndexError_subscript   (* list index out of range *)
| IndexError_pop         (* pop from empty list *)
| ValueError_remove      (* list.remove(x): x not in list *)
| ValueError_max.        (* max() arg is an empty sequence *)

Inductive result (A : Type) : Type :=
| Ok (a : A)
| Raise (e : exn).

Arguments Ok {A} a.
Arguments Raise {A} e.

Definition bind {A B : Type} (m : result A) (k : A -> result B) : result B :=
  match m with
  | Ok a => k a
  | Raise e => Raise e
  end.

Notation "x <- m ;; k" := (bind m (fun x => k))
  (at level 61, m at next level, right associativity).
Notation "' p <- m ;; k" := (bind m (fun x => match x with p => k end))
  (at level 61, p pattern, m at next level, right associativity).

(** ** Cards and the deck *)

Definition card : Type := (Z * string)%type.

Definition rank (c : card) : Z := fst c.
Definition suit (c : card) : string := snd c.

Definition card_eq_dec (a b : card) : {a = b} + {a <> b}.
Proof. decide equality; [apply string_dec | apply Z.eq_dec]. Defined.

Definition card_eqb (a b : card) : bool :=
  if card_eq_dec a b then true else false.

(** [len(l)] *)
Definition len {A : Type} (l : list A) : Z := Z.of_nat (List.length l).

(** [range(lo, hi)] *)
Definition range (lo hi : Z) : list Z :=
  map (fun i => lo + Z.of_nat i) (seq 0 (Z.to_nat (hi - lo))).

(** [self.deck]: [[(rank, suit) for rank in range(2,15) for suit in ['H','D','C','S']]] *)
Definition deck : list card :=
  flat_map (fun rank => map (fun suit => (rank, suit)) ["H"; "D"; "C"; "S"])
           (range 2 15).

(** ** Python list primitives *)

(** [l[i]] for a constant, non-negative [i] *)
Definition subscript {A : Type} (l : list A) (i : nat) : result A :=
  match nth_error l i with
  | Some a => Ok a
  | None => Raise IndexError_subscript
  end.

(** [l.remove(x)]: drops the first element equal to [x] *)
Fixpoint remove (x : card) (l : list card) : result (list card) :=
  match l with
  | [] => Raise ValueError_remove
  | y :: l' =>
      if card_eqb y x then Ok l'
      else l'' <- remove x l' ;; Ok (y :: l'')
  end.

(** [l.pop()]: the last element, and the list without it *)
Definition pop (l : list card) : result (card * list card) :=
  match rev l with
  | [] => Raise IndexError_pop
  | c :: r => Ok (c, rev r)
  end.

(** [sorted(l)] on integers *)
Fixpoint insert (x : Z) (l : list Z) : list Z :=
  match l with
  | [] => [x]
  | y :: l' => if x <=? y then x :: l else y :: insert x l'
  end.

Definition sorted (l : list Z) : list Z := fold_right insert [] l.

(** [len(set(l))] *)
Definition len_set {A : Type} (dec : forall a b : A, {a = b} + {a <> b})
           (l : list A) : Z :=
  len (nodup dec l).

(** [max(l, key=lambda x: x[0])]: the first element of greatest rank *)
Definition max_by_rank (l : list card) : result card :=
  match l with
  | [] => Raise ValueError_max
  | c :: l' =>
      Ok (fold_left (fun best x => if rank best <? rank x then x else best) l' c)
  end.

(** ** [evaluate_og3] *)

Definition ranks_span_two (ranks : list Z) : result bool :=
  r2 <- subscript ranks 2 ;;
  r0 <- subscript ranks 0 ;;
  Ok (r2 - r0 =? 2).

Definition evaluate_og3 (hand : list card) : result (string * Z) :=
  let ranks := sorted (map rank hand) in
  let suits := map suit hand in
  if (len_set string_dec suits =? 1)
     && (if list_eq_dec Z.eq_dec ranks [12; 13; 14] then true else false)
  then Ok ("Mini Royal", 50)
  else
    straight_flush <-
      (if len_set string_dec suits =? 1 then ranks_span_two ranks else Ok false) ;;
    if straight_flush then Ok ("Straight Flush", 40)
    else if len_set Z.eq_dec ranks =? 1 then Ok ("Trips", 30)
    else
      straight <- ranks_span_two ranks ;;
      if straight then Ok ("Straight", 6)
      else if len_set string_dec suits =? 1 then Ok ("Flush", 3)
      else if len_set Z.eq_dec ranks =? 2 then Ok ("Pair", 1)
      else Ok ("Loss", -1).

(** ** [should_draw] *)

Definition is_trump (trump_suit : string) (c : card) : bool :=
  String.eqb (suit c) trump_suit.

Definition should_draw (hand : list card) (trump_suit : string)
  : bool * list card :=
  let trump_cards := filter (is_trump trump_suit) hand in
  if len trump_cards >=? 2 then (false, [])
  else
    let non_trump := filter (fun c => negb (is_trump trump_suit c)) hand in
    let low_cards := filter (fun c => rank c <? 10) non_trump in
    (len low_cards >? 0, low_cards).

(** ** [evaluate_trick] *)

Definition evaluate_trick (player_card dealer_card : card) (trump_suit : string)
  : bool :=
  if String.eqb (suit player_card) (suit dealer_card)
  then rank player_card >? rank dealer_card
  else if String.eqb (suit player_card) trump_suit then true
  else if String.eqb (suit dealer_card) trump_suit then false
  else false.

(** ** The redraw loop of [play_game]

    [for card in cards_to_draw: player_hand.remove(card);
     player_hand.append(remaining_deck.pop())] *)

Fixpoint redraw (cards_to_draw player_hand remaining_deck : list card)
  : result (list card * list card) :=
  match cards_to_draw with
  | [] => Ok (player_hand, remaining_deck)
  | card :: rest =>
      player_hand <- remove card player_hand ;;
      ' (drawn, remaining_deck) <- pop remaining_deck ;;
      redraw rest (player_hand ++ [drawn]) remaining_deck
  end.

(** ** The trick loop of [play_game] *)

Definition is_empty {A : Type} (l : list A) : bool :=
  match l with [] => true | _ => false end.

Definition playable_cards (player_hand : list card) (dealer_card : card)
           (trump_suit : string) : list card :=
  let playable :=
    filter (fun c => String.eqb (suit c) (suit dealer_card)) player_hand in
  let playable :=
    if is_empty playable then filter (is_trump trump_suit) player_hand
    else playable in
  if is_empty playable then player_hand else playable.

(** The variables the loop updates. *)
Record trick_state : Type := {
  ts_player_hand : list card;
  ts_tricks_won : Z;
  ts_used_trump : list card
}.

Definition play_trick (trump_suit : string) (st : trick_state)
           (dealer_card : card) : result trick_state :=
  play_card <-
    max_by_rank (playable_cards (ts_player_hand st) dealer_card trump_suit) ;;
  player_hand <- remove play_card (ts_player_hand st) ;;
  Ok {| ts_player_hand := player_hand;
        ts_tricks_won :=
          if evaluate_trick play_card dealer_card trump_suit
          then ts_tricks_won st + 1 else ts_tricks_won st;
        ts_used_trump :=
          if is_trump trump_suit play_card
          then ts_used_trump st ++ [play_card] else ts_used_trump st |}.

Fixpoint play_tricks (trump_suit : string) (st : trick_state)
         (dealer_hand : list card) : result trick_state :=
  match dealer_hand with
  | [] => Ok st
  | dealer_card :: rest =>
      st <- play_trick trump_suit st dealer_card ;;
      play_tricks trump_suit st rest
  end.

(** The cards the player commits, trick by trick.  The source keeps only the
    trump ones (in [used_trump]); this function names all of them, so that
    statements can speak of "the played cards". *)
Fixpoint played_cards (trump_suit : string) (player_hand dealer_hand : list card)
  : result (list card) :=
  match dealer_hand with
  | [] => Ok []
  | dealer_card :: rest =>
      play_card <- max_by_rank (playable_cards player_hand dealer_card trump_suit) ;;
      player_hand <- remove play_card player_hand ;;
      cs <- played_cards trump_suit player_hand rest ;;
      Ok (play_card :: cs)
  end.

(** The tricks of [played] against [dealer_hand] that [evaluate_trick]
    scores for the player. *)
Definition tricks_scored (trump : string) (played dealer_hand : list card) : Z :=
  len (filter (fun pd => evaluate_trick (fst pd) (snd pd) trump)
              (combine played dealer_hand)).

(** ** Payouts: the "Calculate results" block of [play_game] *)

Definition is_q_k_a (cards : list card) : bool :=
  if list_eq_dec Z.eq_dec (sorted (map rank cards)) [12; 13; 14]
  then true else false.

(** Returns [(ante_result, booray_result, play_result)]. *)
Definition payouts (tricks_won : Z) (used_trump : list card) : Z * Z * Z :=
  let ante_result := -1 in
  let booray_result := -1 in
  let play_result := -1 in
  let '(ante_result, booray_result, play_result) :=
    if tricks_won >=? 1 then (1, 0, 0)
    else (ante_result, booray_result, play_result) in
  let play_result := if tricks_won >=? 2 then 1 else play_result in
  if tricks_won =? 3 then
    let play_result := 2 in
    let booray_result :=
      if is_q_k_a used_trump && (len_set string_dec (map suit used_trump) =? 1)
      then 500
      else if len used_trump =? 3 then 10
      else 1 in
    (ante_result, booray_result, play_result)
  else (ante_result, booray_result, play_result).

(** ** [GameResult] and [play_game] *)

Record GameResult : Type := {
  tricks_won : Z;
  used_all_trump : bool;
  used_akq_trump : bool;
  initial_hand : list card;
  final_hand : list card;
  og3_type : string;
  og3_payout : Z;
  ante_result : Z;
  booray_result : Z;
  play_result : Z
}.

(** The local variables of [play_game] when the trick loop has ended. *)
Record Trial : Type := {
  t_dealer_hand : list card;
  t_trump_suit : string;
  t_initial_hand : list card;
  t_og3 : string * Z;
  t_cards_to_draw : list card;
  t_drawn_hand : list card;       (* [player_hand] when the trick loop starts *)
  t_tricks_won : Z;
  t_used_trump : list card;
  t_player_hand : list card       (* [player_hand] when the trick loop ends *)
}.

Definition game_result (t : Trial) : GameResult :=
  let '(ante, booray, play) := payouts (t_tricks_won t) (t_used_trump t) in
  {| tricks_won := t_tricks_won t;
     used_all_trump := len (t_used_trump t) =? 3;
     used_akq_trump :=
       if len (t_used_trump t) =? 3 then is_q_k_a (t_used_trump t) else false;
     initial_hand := t_initial_hand t;
     final_hand := t_player_hand t;
     og3_type := fst (t_og3 t);
     og3_payout := snd (t_og3 t);
     ante_result := ante;
     booray_result := booray;
     play_result := play |}.

Section Engine.

(** The state of the random generator, and [np.random.shuffle]. *)
Variable G : Type.
Variable shuffle : G -> list card -> list card * G.

(** [deal_cards]: [deck[:3], deck[3:6]] of the shuffled copy *)
Definition deal_cards (g : G) : (list card * list card) * G :=
  let (d, g) := shuffle g deck in
  ((firstn 3 d, firstn 3 (skipn 3 d)), g).

(** [[card for card in self.deck if card not in player_hand + dealer_hand]] *)
Definition remaining_deck (player_hand dealer_hand : list card) : list card :=
  filter (fun card => negb (existsb (card_eqb card) (player_hand ++ dealer_hand)))
         deck.

Definition run_trial (g : G) : result (Trial * G) :=
  let '((player_hand, dealer_hand), g) := deal_cards g in
  dealer_last <- subscript dealer_hand 2 ;;
  let trump_suit := suit dealer_last in
  let initial_hand := player_hand in
  og3 <- evaluate_og3 initial_hand ;;
  let '(draw, cards_to_draw) := should_draw player_hand trump_suit in
  ' (drawn_hand, g) <-
    (if draw then
       let (remaining, g) := shuffle g (remaining_deck player_hand dealer_hand) in
       ' (h, _) <- redraw cards_to_draw player_hand remaining ;;
       Ok (h, g)
     else Ok (player_hand, g)) ;;
  st <- play_tricks trump_suit
          {| ts_player_hand := drawn_hand; ts_tricks_won := 0;
             ts_used_trump := [] |}
          dealer_hand ;;
  Ok ({| t_dealer_hand := dealer_hand;
         t_trump_suit := trump_suit;
         t_initial_hand := initial_hand;
         t_og3 := og3;
         t_cards_to_draw := cards_to_draw;
         t_drawn_hand := drawn_hand;
         t_tricks_won := ts_tricks_won st;
         t_used_trump := ts_used_trump st;
         t_player_hand := ts_player_hand st |}, g).

Definition play_game (g : G) : result (GameResult * G) :=
  ' (t, g) <- run_trial g ;;
  Ok (game_result t, g).

End Engine.

Arguments deal_cards {G} shuffle g.
Arguments run_trial {G} shuffle g.
Arguments play_game {G} shuffle g.

(** ** A scripted generator

    A generator whose state is a script: one list of cards per call of
    [shuffle], which that call brings to the front in the order given. *)

Definition move_to_front (c : card) (l : list card) : list card :=
  filter (card_eqb c) l ++ filter (fun x => negb (card_eqb c x)) l.

Definition scripted_shuffle (g : list (list card)) (l : list card)
  : list card * list (list card) :=
  match g with
  | [] => (l, [])
  | front :: g' => (fold_right move_to_front l front, g')
  end.

(** "The three cards are exactly Q, K, A of one suit", in the words of the
    specification. *)
Definition q_k_a_of_one_suit (cards : list card) : Prop :=
  exists s, Permutation cards [(12, s); (13, s); (14, s)].

(** ** Scripted trials *)

(** The deck dealt in its own order: 2H 2D 2C to the player, 2S 3H 3D to the
    dealer; the player exchanges 2H and 2C for the last two cards, AS and AC. *)
Definition deck_order_trial : Trial :=
  {| t_dealer_hand := [(2, "S"); (3, "H"); (3, "D")];
     t_trump_suit := "D";
     t_initial_hand := [(2, "H"); (2, "D"); (2, "C")];
     t_og3 := ("Trips", 30);
     t_cards_to_draw := [(2, "H"); (2, "C")];
     t_drawn_hand := [(2, "D"); (14, "S"); (14, "C")];
     t_tricks_won := 2;
     t_used_trump := [(2, "D")];
     t_player_hand := [] |}.

(** QH KH AH against 2D 3C JH: three tricks, all with trump. *)
Definition royal_script : list (list card) :=
  [[(12, "H"); (13, "H"); (14, "H"); (2, "D"); (3, "C"); (11, "H")]].

Definition royal_trial : Trial :=
  {| t_dealer_hand := [(2, "D"); (3, "C"); (11, "H")];
     t_trump_suit := "H";
     t_initial_hand := [(12, "H"); (13, "H"); (14, "H")];
     t_og3 := ("Mini Royal", 50);
     t_cards_to_draw := [];
     t_drawn_hand := [(12, "H"); (13, "H"); (14, "H")];
     t_tricks_won := 3;
     t_used_trump := [(14, "H"); (13, "H"); (12, "H")];
     t_player_hand := [] |}.

(** 10S JS AC against QH KH AH: no trick. *)
Definition whitewash_script : list (list card) :=
  [[(10, "S"); (11, "S"); (14, "C"); (12, "H"); (13, "H"); (14, "H")]].

Definition whitewash_trial : Trial :=
  {| t_dealer_hand := [(12, "H"); (13, "H"); (14, "H")];
     t_trump_suit := "H";
     t_initial_hand := [(10, "S"); (11, "S"); (14, "C")];
     t_og3 := ("Loss", -1);
     t_cards_to_draw := [];
     t_drawn_hand := [(10, "S"); (11, "S"); (14, "C")];
     t_tricks_won := 0;
     t_used_trump := [];
     t_player_hand := [] |}.

(** AS JC 10C against 2S QD KH, hearts trump: the ace takes the first trick,
    the two clubs lose the others. *)
Definition one_trick_script : list (list card) :=
  [[(14, "S"); (11, "C"); (10, "C"); (2, "S"); (12, "D"); (13, "H")]].

Definition one_trick_trial : Trial :=
  {| t_dealer_hand := [(2, "S"); (12, "D"); (13, "H")];
     t_trump_suit := "H";
     t_initial_hand := [(14, "S"); (11, "C"); (10, "C")];
     t_og3 := ("Loss", -1);
     t_cards_to_draw := [];
     t_drawn_hand := [(14, "S"); (11, "C"); (10, "C")];
     t_tricks_won := 1;
     t_used_trump := [];
     t_player_hand := [] |}.

(** ** The paytable of [evaluate_og3]: the seven answers it can return *)
Definition og3_paytable : list (string * Z) :=
  [("Mini Royal", 50); ("Straight Flush", 40); ("Trips", 30); ("Straight", 6);
   ("Flush", 3); ("Pair", 1); ("Loss", -1)].

(** ** The rows of the payout block: [(ante, booray, play)] *)
Definition payout_rows : list (Z * Z * Z) :=
  [(-1, -1, -1); (1, 0, 0); (1, 0, 1); (1, 1, 2); (1, 10, 2); (1, 500, 2)].

(** ** The trial loop of [run_simulation]

    [results] and [payouts] are a [defaultdict(int)] and a
    [defaultdict(list)]: association lists in insertion order.  The loop is
    modelled up to its end; the means and the frequencies that
    [run_simulation] then computes are floating-point numbers and are left
    out. *)

(** [str(n)] *)
Definition str (n : Z) : string := NilZero.string_of_int (Z.to_int n).

(** [d[k] += 1] on a [defaultdict(int)] *)
Fixpoint incr (k : string) (d : list (string * Z)) : list (string * Z) :=
  match d with
  | [] => [(k, 0 + 1)]
  | (k', v) :: d' =>
      if String.eqb k' k then (k', v + 1) :: d' else (k', v) :: incr k d'
  end.

(** [d[k].append(x)] on a [defaultdict(list)] *)
Fixpoint append_to (k : string) (x : Z) (d : list (string * list Z))
  : list (string * list Z) :=
  match d with
  | [] => [(k, [] ++ [x])]
  | (k', v) :: d' =>
      if String.eqb k' k then (k', v ++ [x]) :: d' else (k', v) :: append_to k x d'
  end.

(** [d.get(k, default)] *)
Fixpoint get {V : Type} (k : string) (default : V) (d : list (string * V)) : V :=
  match d with
  | [] => default
  | (k', v) :: d' => if String.eqb k' k then v else get k default d'
  end.

(** The body of the loop, after [result = game.play_game()]. *)
Definition tally (result : GameResult)
           (acc : list (string * Z) * list (string * list Z))
  : list (string * Z) * list (string * list Z) :=
  let '(results, payouts) := acc in
  let results := incr ("tricks_" ++ str (tricks_won result))%string results in
  let results := incr ("og3_" ++ og3_type result)%string results in
  let results := if used_all_trump result then incr "all_trump" results else results in
  let results := if used_akq_trump result then incr "akq_trump" results else results in
  let payouts := append_to "ante" (ante_result result) payouts in
  let payouts := append_to "booray" (booray_result result) payouts in
  let payouts := append_to "play" (play_result result) payouts in
  let payouts := append_to "og3" (og3_payout result) payouts in
  (results, payouts).

Section Simulation.

Variable G : Type.
Variable shuffle : G -> list card -> list card * G.

(** [for _ in range(n): ...], [n] iterations left *)
Fixpoint trial_loop (n : nat) (g : G)
         (acc : list (string * Z) * list (string * list Z))
  : result ((list (string * Z) * list (string * list Z)) * G) :=
  match n with
  | O => Ok (acc, g)
  | S n' =>
      ' (result, g) <- play_game shuffle g ;;
      trial_loop n' g (tally result acc)
  end.

(** [run_simulation(n_trials)] up to the end of its loop *)
Definition run_simulation_loop (n_trials : Z) (g : G)
  : result ((list (string * Z) * list (string * list Z)) * G) :=
  trial_loop (Z.to_nat n_trials) g ([], []).

End Simulation.

Arguments trial_loop {G} shuffle n g acc.
Arguments run_simulation_loop {G} shuffle n_trials g.

(** The labels [tally] counts under, and the sum of the counters of some
    labels. *)
Definition tricks_labels : list string :=
  ["tricks_0"; "tricks_1"; "tricks_2"; "tricks_3"].

Definition og3_labels : list string :=
  map (fun kv => ("og3_" ++ fst kv)%string) og3_paytable.

Definition total (labels : list string) (results : list (string * Z)) : Z :=
  fold_right Z.add 0 (map (fun k => get k 0 results) labels).

Definition all_labels : list string :=
  tricks_labels ++ og3_labels ++ ["all_trump"; "akq_trump"].

(** What the two dictionaries hold after [n] trials. *)
Definition tallied (n : Z) (acc : list (string * Z) * list (string * list Z))
  : Prop :=
  let results := fst acc in
  let payouts := snd acc in
  total tricks_labels results = n /\
  total og3_labels results = n /\
  0 <= get "akq_trump" 0 results <= get "all_trump" 0 results /\
  get "all_trump" 0 results <= n /\
  (forall k, In k ["ante"; "booray"; "play"; "og3"] ->
             len (get k [] payouts) = n) /\
  Z.of_nat (count_occ Z.eq_dec (get "ante" [] payouts) (-1))
  = get "tricks_0" 0 results /\
  NoDup (map fst results) /\
  Forall (fun kv => In (fst kv) all_labels /\ 1 <= snd kv) results.

(** * Properties *)

(** ** The [result] monad *)

Lemma bind_Ok_inv {A B : Type} (m : result A) (k : A -> result B) (b : B) :
  bind m k = Ok b -> exists a, m = Ok a /\ k a = Ok b.
Proof.
  destruct m as [a | e]; simpl; intros H.
  - exists a; split; [reflexivity | exact H].
  - discriminate H.
Qed.

Ltac bind_inv H :=
  let a := fresh "a" in
  let Ha := fresh "Ha" in
  apply bind_Ok_inv in H; destruct H as (a & Ha & H).

(** ** List primitives *)

Lemma card_eqb_true (a b : card) : card_eqb a b = true <-> a = b.
Proof.
  unfold card_eqb; destruct (card_eq_dec a b); split; congruence.
Qed.

Lemma card_eqb_refl (a : card) : card_eqb a a = true.
Proof. apply card_eqb_true; reflexivity. Qed.

Lemma remove_In_ok (x : card) (l : list card) :
  In x l -> exists l', remove x l = Ok l'.
Proof.
  induction l as [| y l IH]; simpl; intros Hin; [contradiction |].
  destruct (card_eqb y x) eqn:E; [eauto |].
  destruct Hin as [-> | Hin]; [rewrite card_eqb_refl in E; discriminate |].
  destruct (IH Hin) as [l' ->]; simpl; eauto.
Qed.

Lemma remove_length (x : card) (l l' : list card) :
  remove x l = Ok l' -> List.length l = S (List.length l').
Proof.
  revert l'; induction l as [| y l IH]; simpl; intros l' H; [discriminate |].
  destruct (card_eqb y x).
  - injection H as <-; reflexivity.
  - bind_inv H. injection H as <-. simpl. f_equal. apply IH, Ha.
Qed.

Lemma remove_In_other (x y : card) (l l' : list card) :
  remove x l = Ok l' -> In y l -> y <> x -> In y l'.
Proof.
  revert l'; induction l as [| z l IH]; simpl; intros l' H Hin Hne; [contradiction |].
  destruct (card_eqb z x) eqn:E.
  - injection H as <-. apply card_eqb_true in E; subst z.
    destruct Hin as [-> | Hin]; [congruence | exact Hin].
  - bind_inv H. injection H as <-.
    destruct Hin as [-> | Hin]; [left; reflexivity | right; eauto].
Qed.

Lemma pop_inv (l r : list card) (c : card) :
  pop l = Ok (c, r) -> l = r ++ [c].
Proof.
  unfold pop; intros H.
  destruct (rev l) as [| c' r'] eqn:E; [discriminate |].
  injection H as Hc Hr; subst c r.
  rewrite <- (rev_involutive l), E; reflexivity.
Qed.

Lemma pop_ok (l : list card) :
  l <> [] -> exists c r, pop l = Ok (c, r).
Proof.
  unfold pop; intros Hne.
  destruct (rev l) as [| c r] eqn:E; [| eauto].
  exfalso; apply Hne.
  rewrite <- (rev_involutive l), E; reflexivity.
Qed.

Lemma pop_Raise_inv (l : list card) (e : exn) :
  pop l = Raise e -> l = [] /\ e = IndexError_pop.
Proof.
  unfold pop; intros H.
  destruct (rev l) as [| c r] eqn:E; [| discriminate].
  split; [| congruence].
  rewrite <- (rev_involutive l), E; reflexivity.
Qed.

Lemma max_by_rank_fold_In (l : list card) (c : card) :
  In (fold_left (fun best x => if rank best <? rank x then x else best) l c)
     (c :: l).
Proof.
  revert c; induction l as [| y l IH]; intros c; simpl; [auto |].
  destruct (rank c <? rank y).
  - right; apply IH.
  - destruct (IH c) as [H | H]; [left; exact H | right; right; exact H].
Qed.

Lemma max_by_rank_In (l : list card) (c : card) :
  max_by_rank l = Ok c -> In c l.
Proof.
  destruct l as [| y l]; simpl; intros H; [discriminate |].
  injection H as <-.
  apply (max_by_rank_fold_In l y).
Qed.

Lemma max_by_rank_ok (l : list card) :
  l <> [] -> exists c, max_by_rank l = Ok c.
Proof. destruct l; simpl; [congruence | eauto]. Qed.

Lemma playable_cards_incl (hand : list card) (d : card) (trump : string) (c : card) :
  In c (playable_cards hand d trump) -> In c hand.
Proof.
  unfold playable_cards.
  destruct (filter (fun c0 => String.eqb (suit c0) (suit d)) hand) as [| a p] eqn:E1;
    cbn [is_empty].
  - destruct (filter (is_trump trump) hand) as [| b q] eqn:E2; cbn [is_empty];
      [auto |].
    rewrite <- E2; intros H; apply filter_In in H; tauto.
  - rewrite <- E1; intros H; apply filter_In in H; tauto.
Qed.

Lemma playable_cards_nonempty (hand : list card) (d : card) (trump : string) :
  hand <> [] -> playable_cards hand d trump <> [].
Proof.
  unfold playable_cards; intros Hne.
  destruct (filter (fun c0 => String.eqb (suit c0) (suit d)) hand) as [| a p];
    simpl; [| discriminate].
  destruct (filter (is_trump trump) hand) as [| b q]; simpl;
    [exact Hne | discriminate].
Qed.

(** ** The redraw loop *)

Lemma redraw_inv (cards hand rem hand' rem' : list card) :
  redraw cards hand rem = Ok (hand', rem') ->
  List.length hand' = List.length hand /\
  List.length rem = (List.length rem' + List.length cards)%nat.
Proof.
  revert hand rem; induction cards as [| c cs IH]; simpl; intros hand rem H.
  - injection H as <- <-; split; [reflexivity | lia].
  - bind_inv H. bind_inv H. destruct a0 as [drawn r].
    apply IH in H. destruct H as [H1 H2].
    apply remove_length in Ha. apply pop_inv in Ha0. subst rem.
    rewrite length_app in *; simpl in *. lia.
Qed.

Lemma redraw_ok (cards hand rem : list card) :
  NoDup cards -> incl cards hand ->
  (List.length cards <= List.length rem)%nat ->
  exists hand' rem', redraw cards hand rem = Ok (hand', rem').
Proof.
  revert hand rem; induction cards as [| c cs IH]; simpl;
    intros hand rem Hnd Hincl Hlen; [eauto |].
  inversion Hnd as [| ? ? Hnotin Hnd']; subst.
  destruct (remove_In_ok c hand) as [h Hh]; [apply Hincl; left; reflexivity |].
  rewrite Hh; simpl.
  destruct (pop_ok rem) as (d & r & Hpop);
    [destruct rem; simpl in *; [lia | discriminate] |].
  rewrite Hpop; simpl.
  apply IH; [exact Hnd' | |].
  - intros y Hy. apply in_or_app; left.
    apply (remove_In_other c y hand h Hh).
    + apply Hincl; right; exact Hy.
    + intros ->; contradiction.
  - apply pop_inv in Hpop; subst rem.
    rewrite length_app in Hlen; simpl in Hlen; lia.
Qed.

(** ** The trick loop *)

Lemma play_trick_inv (trump : string) (st st' : trick_state) (d : card) :
  play_trick trump st d = Ok st' ->
  exists c,
    max_by_rank (playable_cards (ts_player_hand st) d trump) = Ok c /\
    remove c (ts_player_hand st) = Ok (ts_player_hand st') /\
    ts_tricks_won st' =
      (if evaluate_trick c d trump then ts_tricks_won st + 1 else ts_tricks_won st) /\
    ts_used_trump st' =
      (if is_trump trump c then ts_used_trump st ++ [c] else ts_used_trump st).
Proof.
  unfold play_trick; intros H.
  bind_inv H. bind_inv H. injection H as <-; simpl.
  exists a; auto.
Qed.

Lemma play_trick_ok (trump : string) (st : trick_state) (d : card) :
  ts_player_hand st <> [] -> exists st', play_trick trump st d = Ok st'.
Proof.
  intros Hne; unfold play_trick.
  destruct (max_by_rank_ok (playable_cards (ts_player_hand st) d trump))
    as [c Hc]; [apply playable_cards_nonempty, Hne |].
  rewrite Hc; simpl.
  destruct (remove_In_ok c (ts_player_hand st)) as [h Hh].
  - eapply playable_cards_incl, max_by_rank_In, Hc.
  - rewrite Hh; simpl; eauto.
Qed.

Lemma tricks_scored_cons (trump : string) (c d : card) (played dealer : list card) :
  tricks_scored trump (c :: played) (d :: dealer) =
  (if evaluate_trick c d trump then 1 else 0) + tricks_scored trump played dealer.
Proof.
  unfold tricks_scored, len; simpl.
  destruct (evaluate_trick c d trump); simpl List.length; lia.
Qed.

Lemma tricks_scored_bounds (trump : string) (played dealer : list card) :
  0 <= tricks_scored trump played dealer <= len dealer.
Proof.
  unfold tricks_scored, len; split; [lia |].
  apply inj_le.
  etransitivity; [apply filter_length_le |].
  rewrite length_combine; lia.
Qed.

Lemma play_tricks_spec (trump : string) (dealer : list card) :
  forall st st',
    play_tricks trump st dealer = Ok st' ->
    exists played,
      played_cards trump (ts_player_hand st) dealer = Ok played /\
      List.length played = List.length dealer /\
      ts_used_trump st' = ts_used_trump st ++ filter (is_trump trump) played /\
      ts_tricks_won st' = ts_tricks_won st + tricks_scored trump played dealer /\
      List.length (ts_player_hand st) =
        (List.length (ts_player_hand st') + List.length dealer)%nat.
Proof.
  induction dealer as [| d ds IH]; simpl; intros st st' H.
  - injection H as <-. exists []; simpl.
    rewrite app_nil_r. unfold tricks_scored, len; simpl.
    repeat split; (reflexivity || lia).
  - bind_inv H.
    destruct (play_trick_inv _ _ _ _ Ha) as (c & Hmax & Hrem & Htw & Hused).
    destruct (IH _ _ H) as (played & Hp & Hlen & Hu & Ht & Hh).
    exists (c :: played).
    rewrite Hmax; cbn [bind]. rewrite Hrem; cbn [bind]. rewrite Hp; cbn [bind].
    rewrite tricks_scored_cons.
    apply remove_length in Hrem.
    repeat split.
    + simpl; f_equal; exact Hlen.
    + rewrite Hu, Hused. simpl. destruct (is_trump trump c);
        [rewrite <- app_assoc |]; reflexivity.
    + rewrite Ht, Htw. destruct (evaluate_trick c d trump); lia.
    + lia.
Qed.

Lemma play_tricks_ok (trump : string) (dealer : list card) :
  forall st,
    (List.length dealer <= List.length (ts_player_hand st))%nat ->
    exists st', play_tricks trump st dealer = Ok st'.
Proof.
  induction dealer as [| d ds IH]; simpl; intros st Hlen; [eauto |].
  destruct (play_trick_ok trump st d) as [st1 H1];
    [destruct (ts_player_hand st); simpl in *; [lia | discriminate] |].
  rewrite H1; simpl. apply IH.
  destruct (play_trick_inv _ _ _ _ H1) as (c & _ & Hrem & _).
  apply remove_length in Hrem. lia.
Qed.

(** ** [play_game] and its local variables *)

Lemma play_game_inv {G : Type} (shuffle : G -> list card -> list card * G)
      (g g' : G) (r : GameResult) :
  play_game shuffle g = Ok (r, g') ->
  exists t, run_trial shuffle g = Ok (t, g') /\ r = game_result t.
Proof.
  unfold play_game; intros H.
  bind_inv H. destruct a as [t g1]. injection H as <- <-.
  exists t; split; [exact Ha | reflexivity].
Qed.

Lemma game_result_payouts (t : Trial) :
  (ante_result (game_result t), booray_result (game_result t),
   play_result (game_result t)) = payouts (t_tricks_won t) (t_used_trump t).
Proof.
  unfold game_result.
  destruct (payouts (t_tricks_won t) (t_used_trump t)) as [[a b] p]; reflexivity.
Qed.

Lemma game_result_tricks_won (t : Trial) :
  tricks_won (game_result t) = t_tricks_won t.
Proof.
  unfold game_result.
  destruct (payouts (t_tricks_won t) (t_used_trump t)) as [[a b] p]; reflexivity.
Qed.

Lemma game_result_flags (t : Trial) :
  used_all_trump (game_result t) = (len (t_used_trump t) =? 3) /\
  used_akq_trump (game_result t) =
    (if len (t_used_trump t) =? 3 then is_q_k_a (t_used_trump t) else false) /\
  final_hand (game_result t) = t_player_hand t.
Proof.
  unfold game_result.
  destruct (payouts (t_tricks_won t) (t_used_trump t)) as [[a b] p]; auto.
Qed.

Lemma filter_filter {A : Type} (f g : A -> bool) (l : list A) :
  filter f (filter g l) = filter (fun x => g x && f x) l.
Proof.
  induction l as [| a l IH]; simpl; [reflexivity |].
  destruct (g a); simpl; [destruct (f a) |]; rewrite IH; reflexivity.
Qed.

(** ** The trick winner rule *)

(** C4. [evaluate_trick] scores the trick for the player exactly when the two
    cards share a suit and the player's rank is higher, or the suits differ
    and the player's card is trump; a player card whose suit is neither the
    led suit nor the trump suit loses. *)
Theorem evaluate_trick_spec (player_card dealer_card : card) (trump_suit : string) :
  (evaluate_trick player_card dealer_card trump_suit = true <->
     (suit player_card = suit dealer_card /\ rank player_card > rank dealer_card)
     \/ (suit player_card <> suit dealer_card /\ suit player_card = trump_suit))
  /\ (suit player_card <> suit dealer_card ->
      suit player_card <> trump_suit ->
      evaluate_trick player_card dealer_card trump_suit = false).
Proof.
  unfold evaluate_trick.
  destruct (String.eqb_spec (suit player_card) (suit dealer_card)) as [Hs | Hs].
  - split; [| intros Hne; contradiction].
    rewrite Z.gtb_gt. split; [intros H; left; auto |].
    intros [[_ H] | [Hne _]]; [exact H | contradiction].
  - destruct (String.eqb_spec (suit player_card) trump_suit) as [Ht | Ht].
    + split; [| intros _ Hne; contradiction].
      split; [intros _; right; auto | reflexivity].
    + assert (Hf : (if String.eqb (suit dealer_card) trump_suit then false else false)
                   = false) by (destruct (String.eqb _ _); reflexivity).
      rewrite Hf. split; [| reflexivity].
      split; [discriminate |].
      intros [[He _] | [_ He]]; contradiction.
Qed.

(** ** The draw policy *)

(** C7. On a 3-card hand [should_draw] answers no-draw when the hand holds at
    least 2 trump cards; with fewer it answers draw together with exactly the
    non-trump cards of rank below 10, and no-draw when there is none. *)
Theorem should_draw_spec (hand : list card) (trump_suit : string) :
  List.length hand = 3%nat ->
  let trump_cards := filter (is_trump trump_suit) hand in
  let low_cards :=
    filter (fun c => negb (is_trump trump_suit c) && (rank c <? 10)) hand in
  (2 <= len trump_cards -> should_draw hand trump_suit = (false, [])) /\
  (len trump_cards < 2 -> low_cards <> [] ->
   should_draw hand trump_suit = (true, low_cards)) /\
  (len trump_cards < 2 -> low_cards = [] ->
   should_draw hand trump_suit = (false, [])).
Proof.
  intros _ trump_cards low_cards.
  unfold should_draw. rewrite filter_filter.
  fold trump_cards; fold low_cards.
  destruct (Z.geb_spec (len trump_cards) 2) as [Hge | Hlt].
  - repeat split; intros; (reflexivity || lia).
  - split; [intros; lia |].
    split; intros _ Hlow.
    + destruct low_cards as [| c l]; [congruence |].
      unfold len; simpl List.length.
      destruct (Z.gtb_spec (Z.of_nat (S (List.length l))) 0); [reflexivity | lia].
    + rewrite Hlow; reflexivity.
Qed.

(** ** Payouts *)

Lemma payouts_0 (used_trump : list card) : payouts 0 used_trump = (-1, -1, -1).
Proof. reflexivity. Qed.

Lemma payouts_1 (used_trump : list card) : payouts 1 used_trump = (1, 0, 0).
Proof. reflexivity. Qed.

Lemma payouts_2 (used_trump : list card) : payouts 2 used_trump = (1, 0, 1).
Proof. reflexivity. Qed.

(** C5. A completed trial with 0 tricks loses the three wagers; with 1 trick
    the ante pays 1 and booray and play push; with 2 tricks the ante pays 1,
    booray pushes and play pays 1. *)
Theorem payouts_below_three {G : Type} (shuffle : G -> list card -> list card * G)
        (g g' : G) (r : GameResult) :
  play_game shuffle g = Ok (r, g') ->
  (tricks_won r = 0 ->
   ante_result r = -1 /\ booray_result r = -1 /\ play_result r = -1) /\
  (tricks_won r = 1 ->
   ante_result r = 1 /\ booray_result r = 0 /\ play_result r = 0) /\
  (tricks_won r = 2 ->
   ante_result r = 1 /\ booray_result r = 0 /\ play_result r = 1).
Proof.
  intros H. apply play_game_inv in H. destruct H as (t & _ & ->).
  rewrite game_result_tricks_won.
  pose proof (game_result_payouts t) as Hp.
  split; [| split]; intros Htw; rewrite Htw in Hp;
    [rewrite payouts_0 in Hp | rewrite payouts_1 in Hp | rewrite payouts_2 in Hp];
    injection Hp as -> -> ->; auto.
Qed.

(** C10. In a returned [GameResult], [used_akq_trump] is set only when
    [used_all_trump] is. *)
Theorem used_akq_trump_all_trump {G : Type}
        (shuffle : G -> list card -> list card * G) (g g' : G) (r : GameResult) :
  play_game shuffle g = Ok (r, g') ->
  used_akq_trump r = true -> used_all_trump r = true.
Proof.
  intros H. apply play_game_inv in H. destruct H as (t & _ & ->).
  destruct (game_result_flags t) as (-> & -> & _).
  destruct (len (t_used_trump t) =? 3); [reflexivity | discriminate].
Qed.

(** ** The structure of a trial *)

Section Trials.

Variable G : Type.
Variable shuffle : G -> list card -> list card * G.

Lemma run_trial_inv (g g' : G) (t : Trial) :
  run_trial shuffle g = Ok (t, g') ->
  let player_hand := fst (fst (deal_cards shuffle g)) in
  let dealer_hand := snd (fst (deal_cards shuffle g)) in
  let g1 := snd (deal_cards shuffle g) in
  exists dealer_last st,
    subscript dealer_hand 2 = Ok dealer_last /\
    t_trump_suit t = suit dealer_last /\
    t_dealer_hand t = dealer_hand /\
    t_initial_hand t = player_hand /\
    evaluate_og3 player_hand = Ok (t_og3 t) /\
    t_cards_to_draw t = snd (should_draw player_hand (t_trump_suit t)) /\
    (if fst (should_draw player_hand (t_trump_suit t))
     then exists rem',
         redraw (t_cards_to_draw t) player_hand
                (fst (shuffle g1 (remaining_deck player_hand dealer_hand)))
         = Ok (t_drawn_hand t, rem')
     else t_drawn_hand t = player_hand) /\
    play_tricks (t_trump_suit t)
                {| ts_player_hand := t_drawn_hand t; ts_tricks_won := 0;
                   ts_used_trump := [] |} dealer_hand = Ok st /\
    t_tricks_won t = ts_tricks_won st /\
    t_used_trump t = ts_used_trump st /\
    t_player_hand t = ts_player_hand st.
Proof.
  unfold run_trial.
  destruct (deal_cards shuffle g) as [[player_hand dealer_hand] g1]; simpl.
  intros H.
  bind_inv H. rename a into dealer_last.
  bind_inv H. rename a into og3.
  destruct (should_draw player_hand (suit dealer_last)) as [draw cards] eqn:Hsd.
  bind_inv H. destruct a as [drawn g2].
  bind_inv H. rename a into st.
  injection H as <- <-; simpl.
  exists dealer_last, st. rewrite Hsd; simpl.
  repeat split; try assumption.
  destruct draw.
  - destruct (shuffle g1 (remaining_deck player_hand dealer_hand)) as [rem g3];
      simpl.
    bind_inv Ha1. destruct a as [h rem']. injection Ha1 as <- <-.
    exists rem'; exact Ha3.
  - injection Ha1 as <- <-; reflexivity.
Qed.

Lemma deal_cards_lengths (g : G) :
  let d := fst (shuffle g deck) in
  fst (fst (deal_cards shuffle g)) = firstn 3 d /\
  snd (fst (deal_cards shuffle g)) = firstn 3 (skipn 3 d).
Proof.
  unfold deal_cards. destruct (shuffle g deck) as [d g1]; simpl; auto.
Qed.

Lemma subscript_2_firstn_3 (l : list card) (c : card) :
  subscript (firstn 3 (skipn 3 l)) 2 = Ok c ->
  List.length (firstn 3 (skipn 3 l)) = 3%nat /\ List.length (firstn 3 l) = 3%nat.
Proof.
  destruct l as [| c1 [| c2 [| c3 [| c4 [| c5 [| c6 l]]]]]]; simpl;
    intros H; (discriminate || auto).
Qed.

(** What every completed trial looks like: 3 cards a side, 3 cards played,
    [used_trump] the trump cards among them, [tricks_won] the tricks that
    [evaluate_trick] scores, and the hand played out. *)
Lemma run_trial_shape (g g' : G) (t : Trial) :
  run_trial shuffle g = Ok (t, g') ->
  List.length (t_dealer_hand t) = 3%nat /\
  List.length (t_initial_hand t) = 3%nat /\
  List.length (t_drawn_hand t) = 3%nat /\
  exists played,
    played_cards (t_trump_suit t) (t_drawn_hand t) (t_dealer_hand t) = Ok played /\
    List.length played = 3%nat /\
    t_used_trump t = filter (is_trump (t_trump_suit t)) played /\
    t_tricks_won t = tricks_scored (t_trump_suit t) played (t_dealer_hand t) /\
    t_player_hand t = [].
Proof.
  intros H. apply run_trial_inv in H.
  destruct (deal_cards_lengths g) as [Hp Hd].
  destruct H as (dl & st & Hsub & Htr & Hdh & Hih & _ & Hcd & Hdraw & Hplay
                 & Htw & Hut & Hph).
  rewrite Hd in Hsub. apply subscript_2_firstn_3 in Hsub.
  destruct Hsub as [Ld Lp]. rewrite <- Hd in Ld. rewrite <- Hp in Lp.
  assert (Ldrawn : List.length (t_drawn_hand t) = 3%nat).
  { destruct (fst (should_draw _ _)).
    - destruct Hdraw as [rem' Hr]. apply redraw_inv in Hr.
      destruct Hr as [Hr _]. congruence.
    - congruence. }
  rewrite Hdh, Hih. repeat split; try assumption.
  apply play_tricks_spec in Hplay; simpl in Hplay.
  destruct Hplay as (played & Hpc & Hlen & Hu & Ht & Hh).
  exists played. rewrite Htw, Hut, Hph, Hu, Ht.
  repeat split; try assumption; try congruence; try lia.
  destruct (ts_player_hand st); [reflexivity | simpl in Hh; lia].
Qed.

End Trials.

(** ** The deck and what is left of it after a deal *)

Lemma deck_length : List.length deck = 52%nat.
Proof. reflexivity. Qed.

Lemma deck_NoDup : NoDup deck.
Proof.
  assert (H : nodup card_eq_dec deck = deck) by (vm_compute; reflexivity).
  rewrite <- H. apply NoDup_nodup.
Qed.

Lemma filter_partition_perm {A : Type} (f : A -> bool) (l : list A) :
  Permutation (filter f l ++ filter (fun x => negb (f x)) l) l.
Proof.
  induction l as [| a l IH]; simpl; [constructor |].
  destruct (f a); simpl.
  - constructor; exact IH.
  - symmetry. apply Permutation_cons_app. symmetry; exact IH.
Qed.

Lemma existsb_card_eqb (c : card) (l : list card) :
  existsb (card_eqb c) l = true <-> In c l.
Proof.
  rewrite existsb_exists. split.
  - intros (x & Hin & He). apply card_eqb_true in He; subst; exact Hin.
  - intros Hin. exists c; split; [exact Hin | apply card_eqb_refl].
Qed.

(** The cards of [l] outside [dealt]: the comprehension of [remaining_deck]
    over any list. *)
Lemma remaining_perm (dealt l : list card) :
  NoDup l -> NoDup dealt -> incl dealt l ->
  Permutation
    (dealt ++ filter (fun c => negb (existsb (card_eqb c) dealt)) l) l.
Proof.
  intros Hl Hd Hincl.
  etransitivity; [| apply (filter_partition_perm (fun c => existsb (card_eqb c) dealt))].
  apply Permutation_app_tail.
  apply NoDup_Permutation; [exact Hd | apply NoDup_filter, Hl |].
  intros c. rewrite filter_In, existsb_card_eqb.
  split; [intros H; split; [apply Hincl |]; exact H | tauto].
Qed.

Lemma firstn_3_3 {A : Type} (l : list A) :
  firstn 3 l ++ firstn 3 (skipn 3 l) = firstn 6 l.
Proof.
  destruct l as [| c1 [| c2 [| c3 [| c4 [| c5 [| c6 l]]]]]]; reflexivity.
Qed.

Section ShuffledDeck.

Variable G : Type.
Variable shuffle : G -> list card -> list card * G.
Hypothesis shuffle_perm : forall g l, Permutation (fst (shuffle g l)) l.

Lemma deal_cards_dealt (g : G) :
  let player_hand := fst (fst (deal_cards shuffle g)) in
  let dealer_hand := snd (fst (deal_cards shuffle g)) in
  List.length player_hand = 3%nat /\ List.length dealer_hand = 3%nat /\
  NoDup (player_hand ++ dealer_hand) /\ incl (player_hand ++ dealer_hand) deck.
Proof.
  destruct (deal_cards_lengths G shuffle g) as [-> ->].
  pose proof (shuffle_perm g deck) as Hp.
  set (d := fst (shuffle g deck)) in *.
  assert (Hlen : List.length d = 52%nat)
    by (rewrite (Permutation_length Hp); apply deck_length).
  assert (Hnd : NoDup d)
    by (apply (Permutation_NoDup (Permutation_sym Hp)), deck_NoDup).
  cbv zeta. rewrite firstn_3_3.
  repeat split.
  - rewrite length_firstn; lia.
  - rewrite length_firstn, length_skipn; lia.
  - rewrite <- (firstn_skipn 6 d) in Hnd. apply NoDup_app_remove_r in Hnd.
    exact Hnd.
  - intros c Hc. apply (Permutation_in c Hp).
    rewrite <- (firstn_skipn 6 d). apply in_or_app; left; exact Hc.
Qed.

Lemma remaining_deck_spec (g : G) :
  let player_hand := fst (fst (deal_cards shuffle g)) in
  let dealer_hand := snd (fst (deal_cards shuffle g)) in
  let remaining := remaining_deck player_hand dealer_hand in
  Permutation ((player_hand ++ dealer_hand) ++ remaining) deck /\
  List.length remaining = 46%nat.
Proof.
  destruct (deal_cards_dealt g) as (Lp & Ld & Hnd & Hincl).
  cbv zeta. unfold remaining_deck.
  assert (Hperm := remaining_perm _ _ deck_NoDup Hnd Hincl).
  split; [exact Hperm |].
  apply Permutation_length in Hperm.
  rewrite !length_app, deck_length, Lp, Ld in Hperm. lia.
Qed.

(** *** Every call of [play_game] returns *)

Lemma insert_length (x : Z) (l : list Z) :
  List.length (insert x l) = S (List.length l).
Proof.
  induction l as [| y l IH]; simpl; [reflexivity |].
  destruct (x <=? y); simpl; [| rewrite IH]; reflexivity.
Qed.

Lemma sorted_length (l : list Z) : List.length (sorted l) = List.length l.
Proof.
  induction l as [| x l IH]; simpl; [reflexivity |].
  rewrite insert_length, IH; reflexivity.
Qed.

Lemma ranks_span_two_ok (ranks : list Z) :
  List.length ranks = 3%nat ->
  exists r0 r1 r2, ranks = [r0; r1; r2] /\
                   ranks_span_two ranks = Ok (r2 - r0 =? 2).
Proof.
  destruct ranks as [| r0 [| r1 [| r2 [| r3 l]]]]; simpl; intros H;
    try discriminate.
  exists r0, r1, r2; auto.
Qed.

Lemma evaluate_og3_ok (hand : list card) :
  List.length hand = 3%nat -> exists r, evaluate_og3 hand = Ok r.
Proof.
  intros Hlen. unfold evaluate_og3.
  destruct (ranks_span_two_ok (sorted (map rank hand))) as (r0 & r1 & r2 & _ & ->);
    [rewrite sorted_length, length_map; exact Hlen |].
  destruct (_ && _); [eauto |].
  destruct (len_set string_dec (map suit hand) =? 1); cbn [bind];
    destruct (r2 - r0 =? 2); eauto;
    destruct (len_set Z.eq_dec _ =? 1); eauto;
    destruct (len_set Z.eq_dec _ =? 2); eauto.
Qed.

Lemma should_draw_cards (hand : list card) (trump_suit : string) :
  NoDup hand ->
  NoDup (snd (should_draw hand trump_suit)) /\
  incl (snd (should_draw hand trump_suit)) hand /\
  (List.length (snd (should_draw hand trump_suit)) <= List.length hand)%nat.
Proof.
  intros Hnd. unfold should_draw.
  destruct (len _ >=? 2); simpl.
  - repeat split; [constructor | intros c [] | lia].
  - rewrite filter_filter. repeat split.
    + apply NoDup_filter, Hnd.
    + intros c Hc. apply filter_In in Hc. tauto.
    + apply filter_length_le.
Qed.

Lemma run_trial_total (g : G) : exists t g', run_trial shuffle g = Ok (t, g').
Proof.
  destruct (deal_cards_dealt g) as (Lp & Ld & Hnd & _).
  destruct (remaining_deck_spec g) as [_ Lr].
  unfold run_trial.
  destruct (deal_cards shuffle g) as [[player_hand dealer_hand] g1];
    simpl in Lp, Ld, Hnd, Lr |- *.
  destruct dealer_hand as [| d1 [| d2 [| d3 [| d4 dh]]]]; try discriminate Ld.
  cbn [subscript nth_error bind].
  destruct (evaluate_og3_ok player_hand Lp) as [og3 ->]; cbn [bind].
  apply NoDup_app_remove_r in Hnd.
  destruct (should_draw_cards player_hand (suit d3) Hnd) as (Hc1 & Hc2 & Hc3).
  destruct (should_draw player_hand (suit d3)) as [draw cards];
    simpl in Hc1, Hc2, Hc3.
  assert (Hdrawn : exists drawn g2,
             (if draw
              then let (remaining, g0) :=
                     shuffle g1 (remaining_deck player_hand [d1; d2; d3]) in
                   ' (h, _) <- redraw cards player_hand remaining ;; Ok (h, g0)
              else Ok (player_hand, g1)) = Ok (drawn, g2)
             /\ List.length drawn = 3%nat).
  { destruct draw; [| eauto].
    pose proof (shuffle_perm g1 (remaining_deck player_hand [d1; d2; d3])) as Hp.
    destruct (shuffle g1 (remaining_deck player_hand [d1; d2; d3])) as [rem g2];
      simpl in Hp.
    apply Permutation_length in Hp.
    destruct (redraw_ok cards player_hand rem Hc1 Hc2) as (h & rem' & Hr);
      [lia |].
    rewrite Hr; cbn [bind]. exists h, g2; split; [reflexivity |].
    apply redraw_inv in Hr. lia. }
  destruct Hdrawn as (drawn & g2 & -> & Ldrawn); cbn [bind].
  destruct (play_tricks_ok (suit d3) [d1; d2; d3]
              {| ts_player_hand := drawn; ts_tricks_won := 0;
                 ts_used_trump := [] |}) as [st ->];
    [simpl; lia |].
  cbn [bind]. eauto.
Qed.

Lemma play_game_total (g : G) : exists r g', play_game shuffle g = Ok (r, g').
Proof.
  unfold play_game.
  destruct (run_trial_total g) as (t & g' & ->); cbn [bind]; eauto.
Qed.

(** *** The redraw never runs out of cards *)

(** C8. The remaining deck built for a redraw holds exactly the 46 cards of
    the deck that were not dealt: it shares no card with the six dealt ones
    and together they make up the deck.  So the redraw loop, the pops it
    performs included, completes, and [play_game] returns. *)
Theorem remaining_deck_never_depleted (g : G) :
  let player_hand := fst (fst (deal_cards shuffle g)) in
  let dealer_hand := snd (fst (deal_cards shuffle g)) in
  let g1 := snd (deal_cards shuffle g) in
  let remaining := remaining_deck player_hand dealer_hand in
  List.length (player_hand ++ dealer_hand) = 6%nat /\
  List.length remaining = 46%nat /\
  (forall c, In c remaining -> ~ In c (player_hand ++ dealer_hand)) /\
  Permutation ((player_hand ++ dealer_hand) ++ remaining) deck /\
  (forall trump_suit, exists hand' rem',
      redraw (snd (should_draw player_hand trump_suit)) player_hand
             (fst (shuffle g1 remaining)) = Ok (hand', rem')) /\
  (exists r g', play_game shuffle g = Ok (r, g')).
Proof.
  destruct (deal_cards_dealt g) as (Lp & Ld & Hnd & _).
  destruct (remaining_deck_spec g) as [Hperm Lr].
  cbv zeta.
  split; [rewrite length_app; lia |].
  split; [exact Lr |].
  split.
  { intros c Hc. unfold remaining_deck in Hc. apply filter_In in Hc.
    destruct Hc as [_ Hc]. rewrite <- existsb_card_eqb.
    destruct (existsb _ _); [discriminate | congruence]. }
  split; [exact Hperm |].
  split; [| apply play_game_total].
  intros trump_suit.
  apply NoDup_app_remove_r in Hnd.
  destruct (should_draw_cards _ trump_suit Hnd) as (Hc1 & Hc2 & Hc3).
  apply redraw_ok; [exact Hc1 | exact Hc2 |].
  rewrite (Permutation_length (shuffle_perm _ _)). lia.
Qed.

(** *** The hand is played out *)

(** C9. Every call of [play_game] returns a [GameResult], and its
    [final_hand] is the empty list. *)
Theorem final_hand_empty (g : G) :
  (exists r g', play_game shuffle g = Ok (r, g')) /\
  (forall r g', play_game shuffle g = Ok (r, g') -> final_hand r = []).
Proof.
  split; [apply play_game_total |].
  intros r g' H. apply play_game_inv in H. destruct H as (t & Ht & ->).
  destruct (game_result_flags t) as (_ & _ & ->).
  apply run_trial_shape in Ht.
  destruct Ht as (_ & _ & _ & played & _ & _ & _ & _ & He). exact He.
Qed.

End ShuffledDeck.

(** ** The scripted generator shuffles *)

Lemma move_to_front_perm (c : card) (l : list card) :
  Permutation (move_to_front c l) l.
Proof. apply filter_partition_perm. Qed.

Lemma scripted_shuffle_perm (g : list (list card)) (l : list card) :
  Permutation (fst (scripted_shuffle g l)) l.
Proof.
  destruct g as [| front g']; simpl; [reflexivity |].
  induction front as [| c front IH]; simpl; [reflexivity |].
  etransitivity; [apply move_to_front_perm | exact IH].
Qed.

(** ** The terminal state of a trial *)

Lemma filter_three_iff {A : Type} (f : A -> bool) (l : list A) :
  List.length l = 3%nat ->
  (len (filter f l) = 3 <-> forallb f l = true).
Proof.
  intros Hlen. unfold len.
  destruct l as [| c1 [| c2 [| c3 [| c4 l]]]]; try discriminate Hlen.
  simpl. destruct (f c1), (f c2), (f c3); simpl; split; intros H;
    (reflexivity || discriminate || lia).
Qed.

(** C2, as the code has it.  After every completed trial [tricks_won] is one
    of 0, 1, 2, 3 and is the number of tricks [evaluate_trick] scores for the
    player; three cards were played, and the trump-usage list holds, in
    order, exactly those of them that are trump: at most 3 entries, and 3
    only when every played card was trump. *)
Theorem trial_terminal_state {G : Type} (shuffle : G -> list card -> list card * G)
        (g g' : G) (t : Trial) :
  run_trial shuffle g = Ok (t, g') ->
  (t_tricks_won t = 0 \/ t_tricks_won t = 1 \/ t_tricks_won t = 2
   \/ t_tricks_won t = 3) /\
  exists played,
    played_cards (t_trump_suit t) (t_drawn_hand t) (t_dealer_hand t) = Ok played /\
    List.length played = 3%nat /\
    t_tricks_won t = tricks_scored (t_trump_suit t) played (t_dealer_hand t) /\
    t_used_trump t = filter (is_trump (t_trump_suit t)) played /\
    len (t_used_trump t) <= 3 /\
    (len (t_used_trump t) = 3 <->
     forallb (is_trump (t_trump_suit t)) played = true).
Proof.
  intros H. apply run_trial_shape in H.
  destruct H as (Ld & _ & _ & played & Hp & Hlen & Hu & Ht & _).
  split.
  - pose proof (tricks_scored_bounds (t_trump_suit t) played (t_dealer_hand t)) as Hb.
    unfold len in Hb. rewrite Ld in Hb. rewrite Ht. simpl in Hb. lia.
  - exists played. repeat split; try assumption.
    + rewrite Hu. unfold len.
      pose proof (filter_length_le (is_trump (t_trump_suit t)) played). lia.
    + rewrite Hu. apply filter_three_iff, Hlen.
    + rewrite Hu. apply filter_three_iff, Hlen.
Qed.

(** C2, as stated, fails: with the deck dealt in its own order the player
    plays one trump card and two others, and the trump-usage list ends with
    one entry. *)
Lemma trump_usage_list_shorter :
  ~ (forall (G : Type) (shuffle : G -> list card -> list card * G),
        (forall g l, Permutation (fst (shuffle g l)) l) ->
        forall g g' t,
          run_trial shuffle g = Ok (t, g') ->
          (t_tricks_won t = 0 \/ t_tricks_won t = 1 \/ t_tricks_won t = 2
           \/ t_tricks_won t = 3) /\
          len (t_used_trump t) = 3).
Proof.
  intros H.
  edestruct (H _ scripted_shuffle scripted_shuffle_perm []) as [_ Hlen];
    [vm_compute; reflexivity |].
  vm_compute in Hlen. discriminate Hlen.
Qed.

Lemma trial_terminal_state_witness :
  run_trial scripted_shuffle [] = Ok (deck_order_trial, []) /\
  (t_tricks_won deck_order_trial = 0 \/ t_tricks_won deck_order_trial = 1
   \/ t_tricks_won deck_order_trial = 2 \/ t_tricks_won deck_order_trial = 3) /\
  exists played,
    played_cards "D" [(2, "D"); (14, "S"); (14, "C")] [(2, "S"); (3, "H"); (3, "D")]
    = Ok played /\
    List.length played = 3%nat /\
    t_tricks_won deck_order_trial =
      tricks_scored "D" played [(2, "S"); (3, "H"); (3, "D")] /\
    t_used_trump deck_order_trial = filter (is_trump "D") played /\
    len (t_used_trump deck_order_trial) <= 3 /\
    (len (t_used_trump deck_order_trial) = 3 <->
     forallb (is_trump "D") played = true).
Proof.
  assert (Hrun : run_trial scripted_shuffle [] = Ok (deck_order_trial, []))
    by (vm_compute; reflexivity).
  split; [exact Hrun |].
  exact (trial_terminal_state scripted_shuffle [] [] deck_order_trial Hrun).
Defined.
Lemma insert_comm (a b : Z) (l : list Z) :
  insert a (insert b l) = insert b (insert a l).
Proof.
  induction l as [| y l IH]; simpl.
  - destruct (Z.leb_spec a b), (Z.leb_spec b a); try reflexivity;
      try (exfalso; lia).
    assert (a = b) by lia; subst; reflexivity.
  - destruct (Z.leb_spec a y), (Z.leb_spec b y); simpl;
      destruct (Z.leb_spec a b), (Z.leb_spec b a);
      destruct (Z.leb_spec a y), (Z.leb_spec b y);
      try reflexivity; try (exfalso; lia).
    + assert (a = b) by lia; subst; reflexivity.
    + rewrite IH; reflexivity.
    + rewrite IH; reflexivity.
    + rewrite IH; reflexivity.
Qed.

Lemma sorted_perm (l l' : list Z) : Permutation l l' -> sorted l = sorted l'.
Proof.
  induction 1; simpl.
  - reflexivity.
  - f_equal; assumption.
  - apply insert_comm.
  - congruence.
Qed.

(** ** The number of cards exchanged *)

(** C3, as the code has it.  For a 3-card hand, a redraw that completes takes
    from the remaining deck as many cards as [should_draw] flags; the flagged
    cards are the non-trump cards of rank below 10 when the hand holds fewer
    than 2 trump cards, and none otherwise; their number is 0, 1, 2 or 3. *)
Theorem redraw_exchange_count (hand : list card) (trump_suit : string)
        (remaining hand' remaining' : list card) :
  List.length hand = 3%nat ->
  redraw (snd (should_draw hand trump_suit)) hand remaining
  = Ok (hand', remaining') ->
  let flagged := snd (should_draw hand trump_suit) in
  len remaining - len remaining' = len flagged /\
  List.length hand' = 3%nat /\
  flagged =
    (if len (filter (is_trump trump_suit) hand) >=? 2 then []
     else filter (fun c => negb (is_trump trump_suit c) && (rank c <? 10)) hand) /\
  (len flagged = 0 \/ len flagged = 1 \/ len flagged = 2 \/ len flagged = 3).
Proof.
  intros Hlen Hr flagged.
  apply redraw_inv in Hr. fold flagged in Hr. destruct Hr as [Hh Hrem].
  assert (Hflag : flagged =
            (if len (filter (is_trump trump_suit) hand) >=? 2 then []
             else filter (fun c => negb (is_trump trump_suit c) && (rank c <? 10))
                         hand)).
  { unfold flagged, should_draw.
    destruct (len _ >=? 2); simpl; [reflexivity | apply filter_filter]. }
  assert (Hle : (List.length flagged <= 3)%nat).
  { rewrite Hflag. destruct (len _ >=? 2); simpl; [lia |].
    rewrite <- Hlen. apply filter_length_le. }
  unfold len. repeat split; try assumption; lia.
Qed.

(** C3, as stated, fails: 2H 3H 4D with spades trump holds three non-trump
    cards of rank below 10, and the three of them are exchanged. *)
Lemma redraw_exchanges_three :
  ~ (forall (hand : list card) (trump_suit : string)
            (remaining hand' remaining' : list card),
        List.length hand = 3%nat ->
        redraw (snd (should_draw hand trump_suit)) hand remaining
        = Ok (hand', remaining') ->
        let n := len remaining - len remaining' in
        n = len (snd (should_draw hand trump_suit)) /\
        (n = 0 \/ n = 1 \/ n = 2)).
Proof.
  intros H.
  specialize (H [(2, "H"); (3, "H"); (4, "D")] "S"
                [(12, "S"); (13, "S"); (14, "S")]
                [(14, "S"); (13, "S"); (12, "S")] []
                eq_refl eq_refl).
  vm_compute in H. destruct H as [_ [H | [H | H]]]; discriminate H.
Qed.

Lemma redraw_exchange_count_witness :
  let hand := [(2, "H"); (3, "H"); (4, "D")] in
  let remaining := [(12, "S"); (13, "S"); (14, "S")] in
  let flagged := snd (should_draw hand "S") in
  len remaining - len (@nil card) = len flagged /\
  List.length [(14, "S"); (13, "S"); (12, "S")] = 3%nat /\
  flagged =
    (if len (filter (is_trump "S") hand) >=? 2 then []
     else filter (fun c => negb (is_trump "S" c) && (rank c <? 10)) hand) /\
  (len flagged = 0 \/ len flagged = 1 \/ len flagged = 2 \/ len flagged = 3).
Proof.
  apply (redraw_exchange_count
           [(2, "H"); (3, "H"); (4, "D")] "S" [(12, "S"); (13, "S"); (14, "S")]
           [(14, "S"); (13, "S"); (12, "S")] []);
    reflexivity.
Defined.

(** ** Q, K, A of one suit *)

Lemma insert_Permutation (x : Z) (l : list Z) : Permutation (insert x l) (x :: l).
Proof.
  induction l as [| y l IH]; simpl; [reflexivity |].
  destruct (x <=? y); [reflexivity |].
  etransitivity; [apply perm_skip, IH | apply perm_swap].
Qed.

Lemma sorted_Permutation (l : list Z) : Permutation (sorted l) l.
Proof.
  induction l as [| x l IH]; simpl; [reflexivity |].
  etransitivity; [apply insert_Permutation | apply perm_skip, IH].
Qed.

Lemma len_set_one_inv {A : Type} (dec : forall a b : A, {a = b} + {a <> b})
      (l : list A) :
  len_set dec l = 1 -> exists s, Forall (fun x => x = s) l.
Proof.
  unfold len_set, len. intros H.
  destruct (nodup dec l) as [| s [| s' n]] eqn:E; simpl in H; try lia.
  exists s. apply Forall_forall. intros x Hx.
  apply (nodup_In dec) in Hx. rewrite E in Hx.
  destruct Hx as [<- | []]; reflexivity.
Qed.

Lemma len_set_one {A : Type} (dec : forall a b : A, {a = b} + {a <> b})
      (l : list A) (s : A) :
  Forall (fun x => x = s) l -> l <> [] -> len_set dec l = 1.
Proof.
  unfold len_set, len. intros Hall Hne.
  induction l as [| x l IH]; [congruence |].
  inversion Hall as [| ? ? Hx Hl]; subst. simpl.
  destruct l as [| y l].
  - destruct (in_dec dec s []) as [[] | _]; reflexivity.
  - destruct (in_dec dec s (y :: l)) as [_ | Hn].
    + apply IH; [exact Hl | discriminate].
    + exfalso; apply Hn. inversion Hl; subst. left; reflexivity.
Qed.

Lemma one_suit_cards (s : string) (cards : list card) :
  Forall (fun x => x = s) (map suit cards) ->
  cards = map (fun r => (r, s)) (map rank cards).
Proof.
  induction cards as [| [r s'] cards IH]; simpl; intros H; [reflexivity |].
  inversion H as [| ? ? Hs Hl]; subst. simpl in *. f_equal. apply IH, Hl.
Qed.

(** The test of the payout block agrees with the specification's wording. *)
Lemma q_k_a_test_iff (cards : list card) :
  is_q_k_a cards && (len_set string_dec (map suit cards) =? 1) = true <->
  q_k_a_of_one_suit cards.
Proof.
  unfold is_q_k_a, q_k_a_of_one_suit. rewrite andb_true_iff, Z.eqb_eq. split.
  - intros [Hr Hs].
    destruct (list_eq_dec Z.eq_dec (sorted (map rank cards)) [12; 13; 14])
      as [E |]; [| discriminate].
    apply len_set_one_inv in Hs. destruct Hs as [s Hs]. exists s.
    rewrite (one_suit_cards s cards Hs).
    change [(12, s); (13, s); (14, s)] with (map (fun r => (r, s)) [12; 13; 14]).
    apply Permutation_map. rewrite <- E. symmetry. apply sorted_Permutation.
  - intros [s Hp]. split.
    + apply (Permutation_map rank), sorted_perm in Hp. rewrite Hp.
      reflexivity.
    + apply (len_set_one _ _ s).
      * apply (Permutation_map suit) in Hp.
        apply (Permutation_Forall (Permutation_sym Hp)).
        repeat constructor.
      * intros E. apply map_eq_nil in E. subst cards.
        apply Permutation_nil in Hp. discriminate Hp.
Qed.

Lemma is_q_k_a_length (cards : list card) :
  is_q_k_a cards = true -> List.length cards = 3%nat.
Proof.
  unfold is_q_k_a.
  destruct (list_eq_dec Z.eq_dec (sorted (map rank cards)) [12; 13; 14])
    as [E |]; [| discriminate].
  intros _. apply (f_equal (@List.length Z)) in E.
  rewrite sorted_length, length_map in E. exact E.
Qed.

Lemma forallb_filter_id {A : Type} (f : A -> bool) (l : list A) :
  forallb f l = true -> filter f l = l.
Proof.
  induction l as [| a l IH]; simpl; [reflexivity |].
  destruct (f a); simpl; [intros H; f_equal; apply IH, H | discriminate].
Qed.

Lemma payouts_3 (used_trump : list card) :
  payouts 3 used_trump =
  (1,
   if is_q_k_a used_trump && (len_set string_dec (map suit used_trump) =? 1)
   then 500 else if len used_trump =? 3 then 10 else 1,
   2).
Proof. reflexivity. Qed.

(** ** Three tricks *)

(** C6. In a completed trial with 3 tricks won the ante pays 1 and play pays
    2.  Booray pays 500 when the trump cards played are exactly Q, K, A of
    one suit; 10 when the three played cards are all trump and are not
    Q, K, A of one suit; and 1 when some played card is not trump. *)
Theorem payouts_three_tricks {G : Type} (shuffle : G -> list card -> list card * G)
        (g g' : G) (t : Trial) :
  run_trial shuffle g = Ok (t, g') ->
  tricks_won (game_result t) = 3 ->
  ante_result (game_result t) = 1 /\
  play_result (game_result t) = 2 /\
  exists played,
    played_cards (t_trump_suit t) (t_drawn_hand t) (t_dealer_hand t) = Ok played /\
    List.length played = 3%nat /\
    t_used_trump t = filter (is_trump (t_trump_suit t)) played /\
    (q_k_a_of_one_suit (t_used_trump t) -> booray_result (game_result t) = 500) /\
    (forallb (is_trump (t_trump_suit t)) played = true ->
     ~ q_k_a_of_one_suit played -> booray_result (game_result t) = 10) /\
    (forallb (is_trump (t_trump_suit t)) played <> true ->
     booray_result (game_result t) = 1).
Proof.
  intros Hrun Htw. rewrite game_result_tricks_won in Htw.
  pose proof (game_result_payouts t) as Hp.
  rewrite Htw, payouts_3 in Hp. injection Hp as Ha Hb Hpl.
  apply run_trial_shape in Hrun.
  destruct Hrun as (_ & _ & _ & played & Hpc & Hlen & Hu & _ & _).
  split; [exact Ha |]. split; [exact Hpl |].
  exists played. repeat split; try assumption.
  - intros Hq. apply q_k_a_test_iff in Hq. rewrite Hq in Hb. exact Hb.
  - intros Hall Hnq.
    assert (Hup : t_used_trump t = played)
      by (rewrite Hu; apply forallb_filter_id, Hall).
    rewrite Hup in Hb.
    destruct (is_q_k_a played && _) eqn:E;
      [apply q_k_a_test_iff in E; contradiction |].
    unfold len in Hb. rewrite Hlen in Hb. exact Hb.
  - intros Hnall.
    assert (Hn3 : len (t_used_trump t) <> 3)
      by (rewrite Hu; intros H3; apply Hnall, (filter_three_iff _ _ Hlen), H3).
    destruct (is_q_k_a (t_used_trump t)) eqn:E.
    + apply is_q_k_a_length in E. unfold len in Hn3. lia.
    + simpl in Hb. apply Z.eqb_neq in Hn3. rewrite Hn3 in Hb. exact Hb.
Qed.

Lemma payouts_three_tricks_witness :
  run_trial scripted_shuffle royal_script = Ok (royal_trial, []) /\
  tricks_won (game_result royal_trial) = 3 /\
  q_k_a_of_one_suit (t_used_trump royal_trial) /\
  ante_result (game_result royal_trial) = 1 /\
  play_result (game_result royal_trial) = 2 /\
  booray_result (game_result royal_trial) = 500.
Proof.
  assert (Hrun : run_trial scripted_shuffle royal_script = Ok (royal_trial, []))
    by (vm_compute; reflexivity).
  assert (Htw : tricks_won (game_result royal_trial) = 3) by reflexivity.
  assert (Hq : q_k_a_of_one_suit (t_used_trump royal_trial)).
  { exists "H". simpl.
    apply (perm_trans (perm_swap _ _ _)).
    apply (perm_trans (perm_skip _ (perm_swap _ _ _))).
    apply perm_swap. }
  destruct (payouts_three_tricks scripted_shuffle royal_script [] royal_trial
                                 Hrun Htw)
    as (Ha & Hp & played & _ & _ & _ & H500 & _).
  split; [exact Hrun |]. split; [exact Htw |]. split; [exact Hq |].
  split; [exact Ha |]. split; [exact Hp | exact (H500 Hq)].
Defined.

(** ** Pairs in [evaluate_og3] *)

Lemma len_set_perm {A : Type} (dec : forall a b : A, {a = b} + {a <> b})
      (l l' : list A) :
  Permutation l l' -> len_set dec l = len_set dec l'.
Proof.
  intros Hp. unfold len_set, len. f_equal.
  apply Permutation_length, NoDup_Permutation; try apply NoDup_nodup.
  intros x. rewrite !nodup_In.
  split; apply Permutation_in; [exact Hp | symmetry; exact Hp].
Qed.

Lemma sorted_3 (x y z : Z) :
  sorted [x; y; z] =
  [Z.min x (Z.min y z); x + y + z - Z.min x (Z.min y z) - Z.max x (Z.max y z);
   Z.max x (Z.max y z)].
Proof.
  unfold sorted; simpl.
  destruct (Z.leb_spec y z); simpl;
    destruct (Z.leb_spec x y); simpl;
    try destruct (Z.leb_spec x z); simpl;
    repeat f_equal; lia.
Qed.

Lemma two_ranks_inv (x y z : Z) :
  len_set Z.eq_dec [x; y; z] = 2 -> x = y \/ x = z \/ y = z.
Proof.
  intros H.
  destruct (Z.eq_dec x y) as [| Hxy]; [auto |].
  destruct (Z.eq_dec x z) as [| Hxz]; [auto |].
  destruct (Z.eq_dec y z) as [| Hyz]; [auto |].
  exfalso.
  assert (Hnd : NoDup [x; y; z]).
  { repeat constructor; simpl; intuition congruence. }
  unfold len_set in H. rewrite (nodup_fixed_point Z.eq_dec Hnd) in H.
  discriminate H.
Qed.

(** On three distinct cards with exactly two distinct ranks, [evaluate_og3]
    answers "Pair" unless the highest and the lowest rank differ by 2, and
    "Straight" when they do. *)
Lemma evaluate_og3_pair (a b c : card) :
  NoDup [a; b; c] ->
  len_set Z.eq_dec (map rank [a; b; c]) = 2 ->
  let hi := Z.max (rank a) (Z.max (rank b) (rank c)) in
  let lo := Z.min (rank a) (Z.min (rank b) (rank c)) in
  evaluate_og3 [a; b; c] =
  Ok (if hi - lo =? 2 then ("Straight", 6) else ("Pair", 1)).
Proof.
  intros Hnd H2 hi lo.
  assert (Hsuits : (len_set string_dec (map suit [a; b; c]) =? 1) = false).
  { apply Z.eqb_neq. intros H1. apply len_set_one_inv in H1.
    destruct H1 as [s Hs].
    pose proof (one_suit_cards s [a; b; c] Hs) as E. simpl in E.
    injection E as Ea Eb Ec.
    apply two_ranks_inv in H2.
    inversion Hnd as [| ? ? Hab Hnd']; subst.
    inversion Hnd' as [| ? ? Hbc _]; subst.
    simpl in Hab, Hbc.
    destruct H2 as [E | [E | E]]; rewrite E in *; intuition congruence. }
  assert (Hranks : len_set Z.eq_dec (sorted (map rank [a; b; c])) = 2).
  { rewrite (len_set_perm _ _ _ (sorted_Permutation _)). exact H2. }
  assert (Hspan : ranks_span_two (sorted (map rank [a; b; c]))
                  = Ok (hi - lo =? 2)).
  { simpl map. rewrite sorted_3. reflexivity. }
  unfold evaluate_og3.
  rewrite Hsuits, Hranks, Hspan. cbn [andb bind].
  destruct (hi - lo =? 2); reflexivity.
Qed.

(** C1 fails on the code: 5H 5D 7C holds exactly two distinct ranks, and
    [evaluate_og3] answers "Straight" with payout 6, because its run test
    compares only the highest and the lowest rank. *)
Theorem pair_scored_as_straight :
  len_set Z.eq_dec (map rank [(5, "H"); (5, "D"); (7, "C")]) = 2 /\
  evaluate_og3 [(5, "H"); (5, "D"); (7, "C")] = Ok ("Straight", 6).
Proof. split; reflexivity. Qed.

(** ** The statements at the scripted trials *)

Lemma should_draw_spec_witness :
  let hand := [(2, "H"); (3, "H"); (4, "D")] in
  let trump_cards := filter (is_trump "S") hand in
  let low_cards := filter (fun c => negb (is_trump "S" c) && (rank c <? 10)) hand in
  (2 <= len trump_cards -> should_draw hand "S" = (false, [])) /\
  (len trump_cards < 2 -> low_cards <> [] ->
   should_draw hand "S" = (true, low_cards)) /\
  (len trump_cards < 2 -> low_cards = [] -> should_draw hand "S" = (false, [])).
Proof.
  apply (should_draw_spec [(2, "H"); (3, "H"); (4, "D")] "S"). reflexivity.
Defined.

Lemma payouts_below_three_witness :
  (play_game scripted_shuffle whitewash_script
   = Ok (game_result whitewash_trial, []) /\
   tricks_won (game_result whitewash_trial) = 0 /\
   ante_result (game_result whitewash_trial) = -1 /\
   booray_result (game_result whitewash_trial) = -1 /\
   play_result (game_result whitewash_trial) = -1) /\
  (play_game scripted_shuffle one_trick_script
   = Ok (game_result one_trick_trial, []) /\
   tricks_won (game_result one_trick_trial) = 1 /\
   ante_result (game_result one_trick_trial) = 1 /\
   booray_result (game_result one_trick_trial) = 0 /\
   play_result (game_result one_trick_trial) = 0) /\
  (play_game scripted_shuffle [] = Ok (game_result deck_order_trial, []) /\
   tricks_won (game_result deck_order_trial) = 2 /\
   ante_result (game_result deck_order_trial) = 1 /\
   booray_result (game_result deck_order_trial) = 0 /\
   play_result (game_result deck_order_trial) = 1).
Proof.
  assert (Hrun0 : play_game scripted_shuffle whitewash_script
                  = Ok (game_result whitewash_trial, []))
    by (vm_compute; reflexivity).
  assert (Hrun1 : play_game scripted_shuffle one_trick_script
                  = Ok (game_result one_trick_trial, []))
    by (vm_compute; reflexivity).
  assert (Hrun2 : play_game scripted_shuffle []
                  = Ok (game_result deck_order_trial, []))
    by (vm_compute; reflexivity).
  assert (Htw0 : tricks_won (game_result whitewash_trial) = 0) by reflexivity.
  assert (Htw1 : tricks_won (game_result one_trick_trial) = 1) by reflexivity.
  assert (Htw2 : tricks_won (game_result deck_order_trial) = 2) by reflexivity.
  destruct (payouts_below_three scripted_shuffle whitewash_script []
                                (game_result whitewash_trial) Hrun0)
    as (Row0 & _ & _).
  destruct (payouts_below_three scripted_shuffle one_trick_script []
                                (game_result one_trick_trial) Hrun1)
    as (_ & Row1 & _).
  destruct (payouts_below_three scripted_shuffle [] []
                                (game_result deck_order_trial) Hrun2)
    as (_ & _ & Row2).
  split; [| split].
  - split; [exact Hrun0 |]. split; [exact Htw0 | exact (Row0 Htw0)].
  - split; [exact Hrun1 |]. split; [exact Htw1 | exact (Row1 Htw1)].
  - split; [exact Hrun2 |]. split; [exact Htw2 | exact (Row2 Htw2)].
Defined.

Lemma used_akq_trump_all_trump_witness :
  play_game scripted_shuffle royal_script = Ok (game_result royal_trial, []) /\
  used_akq_trump (game_result royal_trial) = true /\
  used_all_trump (game_result royal_trial) = true.
Proof.
  assert (Hrun : play_game scripted_shuffle royal_script
                 = Ok (game_result royal_trial, []))
    by (vm_compute; reflexivity).
  split; [exact Hrun |].
  assert (Hq : used_akq_trump (game_result royal_trial) = true) by reflexivity.
  split; [exact Hq |].
  exact (used_akq_trump_all_trump scripted_shuffle royal_script []
                                  (game_result royal_trial) Hrun Hq).
Defined.

Lemma remaining_deck_never_depleted_witness :
  let player_hand := fst (fst (deal_cards scripted_shuffle [])) in
  let dealer_hand := snd (fst (deal_cards scripted_shuffle [])) in
  let g1 := snd (deal_cards scripted_shuffle []) in
  let remaining := remaining_deck player_hand dealer_hand in
  List.length (player_hand ++ dealer_hand) = 6%nat /\
  List.length remaining = 46%nat /\
  (forall c, In c remaining -> ~ In c (player_hand ++ dealer_hand)) /\
  Permutation ((player_hand ++ dealer_hand) ++ remaining) deck /\
  (forall trump_suit, exists hand' rem',
      redraw (snd (should_draw player_hand trump_suit)) player_hand
             (fst (scripted_shuffle g1 remaining)) = Ok (hand', rem')) /\
  (exists r g', play_game scripted_shuffle [] = Ok (r, g')).
Proof.
  exact (remaining_deck_never_depleted (list (list card)) scripted_shuffle
                                       scripted_shuffle_perm []).
Defined.

Lemma final_hand_empty_witness :
  (exists r g', play_game scripted_shuffle [] = Ok (r, g')) /\
  (forall r g', play_game scripted_shuffle [] = Ok (r, g') -> final_hand r = []).
Proof.
  exact (final_hand_empty (list (list card)) scripted_shuffle
                          scripted_shuffle_perm []).
Defined.

(** * Further properties of the engine *)

(** ** [evaluate_og3]: answers, errors, order of the cards *)

Lemma ranks_span_two_long (ranks : list Z) :
  (3 <= List.length ranks)%nat -> exists b, ranks_span_two ranks = Ok b.
Proof.
  destruct ranks as [| r0 [| r1 [| r2 l]]]; simpl; intros H; try lia.
  unfold ranks_span_two; simpl; eauto.
Qed.

Ltac og3_case :=
  solve [ repeat (first [ left; solve [intuition congruence] | right ]);
          intuition congruence ].

(** The path [evaluate_og3] takes to each of its answers. *)
Lemma evaluate_og3_cases (hand : list card) (r : string * Z) :
  evaluate_og3 hand = Ok r ->
  let ranks := sorted (map rank hand) in
  let one_suit := len_set string_dec (map suit hand) =? 1 in
  let span := ranks_span_two ranks in
  (r = ("Mini Royal", 50) /\ one_suit = true /\ is_q_k_a hand = true) \/
  (r = ("Straight Flush", 40) /\ one_suit = true /\ is_q_k_a hand = false /\
   span = Ok true) \/
  (r = ("Trips", 30) /\ len_set Z.eq_dec ranks = 1 /\
   (one_suit = false \/ span = Ok false)) \/
  (r = ("Straight", 6) /\ one_suit = false /\ len_set Z.eq_dec ranks <> 1 /\
   span = Ok true) \/
  (r = ("Flush", 3) /\ one_suit = true /\ len_set Z.eq_dec ranks <> 1 /\
   span = Ok false) \/
  (r = ("Pair", 1) /\ one_suit = false /\ len_set Z.eq_dec ranks = 2 /\
   span = Ok false) \/
  (r = ("Loss", -1) /\ one_suit = false /\ len_set Z.eq_dec ranks <> 1 /\
   len_set Z.eq_dec ranks <> 2 /\ span = Ok false).
Proof.
  unfold evaluate_og3, is_q_k_a. cbv zeta.
  destruct (len_set string_dec (map suit hand) =? 1) eqn:Es;
    destruct (list_eq_dec Z.eq_dec (sorted (map rank hand)) [12; 13; 14])
      as [Hq | Hq];
    cbn [andb].
  all: try (intros H; injection H as <-; og3_case).
  all: destruct (ranks_span_two (sorted (map rank hand))) as [[|] | e];
    cbn [bind];
    destruct (Z.eqb_spec (len_set Z.eq_dec (sorted (map rank hand))) 1);
    try destruct (Z.eqb_spec (len_set Z.eq_dec (sorted (map rank hand))) 2);
    intros H; try discriminate H; injection H as <-; og3_case.
Qed.

Lemma ranks_span_two_short (ranks : list Z) :
  (List.length ranks < 3)%nat -> ranks_span_two ranks = Raise IndexError_subscript.
Proof.
  destruct ranks as [| r0 [| r1 [| r2 l]]]; simpl; intros H;
    (reflexivity || lia).
Qed.

Lemma is_q_k_a_perm (cards cards' : list card) :
  Permutation cards cards' -> is_q_k_a cards = is_q_k_a cards'.
Proof.
  intros Hp. unfold is_q_k_a.
  rewrite (sorted_perm _ _ (Permutation_map rank Hp)). reflexivity.
Qed.

Lemma evaluate_og3_perm (hand hand' : list card) :
  Permutation hand hand' -> evaluate_og3 hand = evaluate_og3 hand'.
Proof.
  intros Hp. unfold evaluate_og3.
  rewrite (sorted_perm _ _ (Permutation_map rank Hp)).
  rewrite (len_set_perm string_dec _ _ (Permutation_map suit Hp)).
  reflexivity.
Qed.

Lemma evaluate_og3_long_ok (hand : list card) :
  (3 <= List.length hand)%nat -> exists r, evaluate_og3 hand = Ok r.
Proof.
  intros Hlen. unfold evaluate_og3.
  destruct (ranks_span_two_long (sorted (map rank hand))) as [b ->];
    [rewrite sorted_length, length_map; exact Hlen |].
  destruct (_ && _); [eauto |].
  destruct (len_set string_dec (map suit hand) =? 1); cbn [bind];
    destruct b; eauto;
    destruct (len_set Z.eq_dec _ =? 1); eauto;
    destruct (len_set Z.eq_dec _ =? 2); eauto.
Qed.

Lemma evaluate_og3_mini_royal (hand : list card) :
  evaluate_og3 hand = Ok ("Mini Royal", 50) <-> q_k_a_of_one_suit hand.
Proof.
  rewrite <- q_k_a_test_iff. split.
  - intros H. apply evaluate_og3_cases in H. cbv zeta in H.
    destruct H as [(_ & -> & ->) | H]; [reflexivity |].
    exfalso. clear - H. intuition congruence.
  - intros H. unfold evaluate_og3. rewrite andb_comm in H.
    unfold is_q_k_a in H. rewrite H. reflexivity.
Qed.

(** X1. On a hand of at least 3 cards [evaluate_og3] returns, and what it
    returns is one of the seven lines of the paytable: category and payout
    always go together. *)
Theorem evaluate_og3_in_paytable (hand : list card) :
  (3 <= List.length hand)%nat ->
  exists r, evaluate_og3 hand = Ok r /\ In r og3_paytable.
Proof.
  intros Hlen. destruct (evaluate_og3_long_ok hand Hlen) as [r Hr].
  exists r; split; [exact Hr |].
  apply evaluate_og3_cases in Hr. cbv zeta in Hr. unfold og3_paytable.
  destruct Hr as [(-> & _) | [(-> & _) | [(-> & _) | [(-> & _) | [(-> & _) |
                 [(-> & _) | (-> & _)]]]]]]; simpl; tauto.
Qed.

(** X2. On a hand of fewer than 3 cards [evaluate_og3] raises IndexError,
    with one exception: cards of one rank that are not of one suit are
    answered "Trips". *)
Theorem evaluate_og3_short_hand (hand : list card) :
  (List.length hand < 3)%nat ->
  evaluate_og3 hand =
  if negb (len_set string_dec (map suit hand) =? 1)
     && (len_set Z.eq_dec (map rank hand) =? 1)
  then Ok ("Trips", 30) else Raise IndexError_subscript.
Proof.
  intros Hlen. unfold evaluate_og3.
  rewrite (ranks_span_two_short (sorted (map rank hand)))
    by (rewrite sorted_length, length_map; exact Hlen).
  rewrite (len_set_perm Z.eq_dec _ _ (sorted_Permutation (map rank hand))).
  destruct (list_eq_dec Z.eq_dec (sorted (map rank hand)) [12; 13; 14]) as [E | _].
  - apply (f_equal (@List.length Z)) in E.
    rewrite sorted_length, length_map in E. simpl in E. lia.
  - rewrite andb_false_r.
    destruct (len_set string_dec (map suit hand) =? 1); cbn [bind negb andb];
      [reflexivity |].
    destruct (len_set Z.eq_dec (map rank hand) =? 1); reflexivity.
Qed.

(** X3. The answer of [evaluate_og3] does not depend on the order of the
    cards in the hand. *)
Theorem evaluate_og3_order_independent (hand hand' : list card) :
  Permutation hand hand' -> evaluate_og3 hand = evaluate_og3 hand'.
Proof. apply evaluate_og3_perm. Qed.

(** X4. [evaluate_og3] answers "Mini Royal", payout 50, exactly on the hands
    that are Q, K, A of one suit. *)
Theorem evaluate_og3_mini_royal_iff (hand : list card) :
  evaluate_og3 hand = Ok ("Mini Royal", 50) <-> q_k_a_of_one_suit hand.
Proof. apply evaluate_og3_mini_royal. Qed.

(** X5. On a 3-card hand [evaluate_og3] answers "Trips", payout 30, exactly
    when the three ranks are equal. *)
Theorem evaluate_og3_trips_iff (hand : list card) :
  List.length hand = 3%nat ->
  (evaluate_og3 hand = Ok ("Trips", 30) <->
   forall a b, In a hand -> In b hand -> rank a = rank b).
Proof.
  intros Hlen. split.
  - intros H a b Ha Hb. apply evaluate_og3_cases in H. cbv zeta in H.
    assert (H1 : len_set Z.eq_dec (sorted (map rank hand)) = 1)
      by (clear - H; intuition congruence).
    apply len_set_one_inv in H1. destruct H1 as [s Hs].
    rewrite Forall_forall in Hs.
    assert (Hin : forall c, In c hand -> rank c = s).
    { intros c Hc. apply Hs.
      apply (Permutation_in _ (Permutation_sym (sorted_Permutation _))).
      apply in_map, Hc. }
    rewrite (Hin a Ha), (Hin b Hb). reflexivity.
  - intros Hall.
    destruct hand as [| a [| b [| c [| d l]]]]; try discriminate Hlen.
    assert (Hb : rank b = rank a) by (apply Hall; simpl; auto).
    assert (Hc : rank c = rank a) by (apply Hall; simpl; auto).
    unfold evaluate_og3. simpl map. rewrite Hb, Hc, sorted_3.
    replace (Z.min (rank a) (Z.min (rank a) (rank a))) with (rank a) by lia.
    replace (Z.max (rank a) (Z.max (rank a) (rank a))) with (rank a) by lia.
    replace (rank a + rank a + rank a - rank a - rank a) with (rank a) by lia.
    assert (H1 : len_set Z.eq_dec [rank a; rank a; rank a] = 1)
      by (apply (len_set_one _ _ (rank a)); [repeat constructor | discriminate]).
    rewrite H1.
    assert (Hs : ranks_span_two [rank a; rank a; rank a] = Ok false).
    { unfold ranks_span_two; simpl. f_equal. apply Z.eqb_neq. lia. }
    rewrite Hs.
    destruct (list_eq_dec Z.eq_dec [rank a; rank a; rank a] [12; 13; 14]) as [E | _];
      [injection E; intros; lia |].
    rewrite andb_false_r.
    destruct (len_set string_dec _ =? 1); reflexivity.
Qed.

Lemma evaluate_og3_in_paytable_witness :
  exists r, evaluate_og3 [(2, "H"); (9, "D"); (11, "C")] = Ok r /\ In r og3_paytable.
Proof.
  apply (evaluate_og3_in_paytable [(2, "H"); (9, "D"); (11, "C")]). simpl; lia.
Defined.

Lemma evaluate_og3_short_hand_witness :
  evaluate_og3 [(7, "H"); (7, "D")] =
  if negb (len_set string_dec (map suit [(7, "H"); (7, "D")]) =? 1)
     && (len_set Z.eq_dec (map rank [(7, "H"); (7, "D")]) =? 1)
  then Ok ("Trips", 30) else Raise IndexError_subscript.
Proof.
  apply (evaluate_og3_short_hand [(7, "H"); (7, "D")]). simpl; lia.
Defined.

Lemma evaluate_og3_order_independent_witness :
  evaluate_og3 [(13, "H"); (14, "H"); (12, "H")]
  = evaluate_og3 [(12, "H"); (13, "H"); (14, "H")].
Proof.
  apply evaluate_og3_order_independent.
  apply perm_trans with [(13, "H"); (12, "H"); (14, "H")];
    [apply perm_skip, perm_swap | apply perm_swap].
Defined.

Lemma evaluate_og3_trips_iff_witness :
  evaluate_og3 [(2, "H"); (2, "D"); (2, "C")] = Ok ("Trips", 30) <->
  forall a b, In a [(2, "H"); (2, "D"); (2, "C")] ->
              In b [(2, "H"); (2, "D"); (2, "C")] -> rank a = rank b.
Proof.
  apply (evaluate_og3_trips_iff [(2, "H"); (2, "D"); (2, "C")]). reflexivity.
Defined.

Lemma sorted_ascending_3 (x y z : Z) :
  x <= y -> y <= z -> sorted [x; y; z] = [x; y; z].
Proof.
  intros Hxy Hyz. rewrite sorted_3. repeat f_equal; lia.
Qed.

(** X6. On three distinct cards [evaluate_og3] answers "Straight Flush",
    payout 40, exactly when they are three consecutive ranks of one suit
    other than Q, K, A. *)
Theorem evaluate_og3_straight_flush_iff (hand : list card) :
  List.length hand = 3%nat -> NoDup hand ->
  (evaluate_og3 hand = Ok ("Straight Flush", 40) <->
   exists s r, r <> 12 /\ Permutation hand [(r, s); (r + 1, s); (r + 2, s)]).
Proof.
  intros Hlen Hnd. split.
  - intros H. apply evaluate_og3_cases in H. cbv zeta in H.
    assert (H' : (len_set string_dec (map suit hand) =? 1) = true /\
                 is_q_k_a hand = false /\
                 ranks_span_two (sorted (map rank hand)) = Ok true)
      by (clear - H; intuition congruence).
    clear H. destruct H' as (Hs & Hq & Hspan).
    apply Z.eqb_eq, len_set_one_inv in Hs. destruct Hs as [s Hs].
    pose proof (one_suit_cards s hand Hs) as Hhand.
    pose proof (sorted_Permutation (map rank hand)) as Hperm.
    destruct hand as [| a [| b [| c [| d l]]]]; try discriminate Hlen.
    simpl map in *. rewrite sorted_3 in Hspan, Hperm.
    unfold is_q_k_a in Hq. simpl map in Hq. rewrite sorted_3 in Hq.
    set (lo := Z.min (rank a) (Z.min (rank b) (rank c))) in *.
    set (hi := Z.max (rank a) (Z.max (rank b) (rank c))) in *.
    unfold ranks_span_two in Hspan; simpl in Hspan.
    injection Hspan as Hspan. apply Z.eqb_eq in Hspan.
    assert (Hne : rank a <> rank b /\ rank a <> rank c /\ rank b <> rank c).
    { injection Hhand as Ea Eb Ec.
      inversion Hnd as [| ? ? Hab Hnd']; subst.
      inversion Hnd' as [| ? ? Hbc _]; subst. simpl in Hab, Hbc.
      repeat split; intros E; rewrite E in *; intuition congruence. }
    assert (Hmid : rank a + rank b + rank c - lo - hi = lo + 1)
      by (unfold lo, hi in *; lia).
    rewrite Hmid in Hperm, Hq.
    replace hi with (lo + 2) in Hperm, Hq by lia.
    exists s, lo. split.
    + intros E. rewrite E in Hq. simpl in Hq. discriminate Hq.
    + rewrite Hhand.
      apply (Permutation_map (fun r => (r, s))) in Hperm.
      symmetry. exact Hperm.
  - intros (s & r & Hr & Hp).
    rewrite (evaluate_og3_perm _ _ Hp). unfold evaluate_og3. simpl map.
    rewrite sorted_ascending_3 by lia.
    assert (H1 : len_set string_dec [s; s; s] = 1)
      by (apply (len_set_one _ _ s); [repeat constructor | discriminate]).
    rewrite H1.
    destruct (list_eq_dec Z.eq_dec [r; r + 1; r + 2] [12; 13; 14]) as [E | _];
      [injection E; intros; lia |].
    cbn [andb Z.eqb Pos.eqb]. unfold ranks_span_two; simpl.
    replace (r + 2 - r =? 2) with true by (symmetry; apply Z.eqb_eq; lia).
    reflexivity.
Qed.

Lemma evaluate_og3_straight_flush_iff_witness :
  evaluate_og3 [(5, "C"); (3, "C"); (4, "C")] = Ok ("Straight Flush", 40) <->
  exists s r, r <> 12 /\
              Permutation [(5, "C"); (3, "C"); (4, "C")]
                          [(r, s); (r + 1, s); (r + 2, s)].
Proof.
  apply (evaluate_og3_straight_flush_iff [(5, "C"); (3, "C"); (4, "C")]);
    [reflexivity |].
  repeat constructor; simpl; intuition discriminate.
Defined.

(** ** The card the player commits to a trick *)

Lemma max_fold_decomp (l : list card) :
  forall c0,
    let c := fold_left (fun best x => if rank best <? rank x then x else best) l c0 in
    (c = c0 /\ forall x, In x l -> rank x <= rank c0) \/
    (exists l1 l2,
        l = l1 ++ c :: l2 /\ rank c0 < rank c /\
        (forall x, In x l1 -> rank x < rank c) /\
        (forall x, In x l2 -> rank x <= rank c)).
Proof.
  induction l as [| y l IH]; intros c0; cbv zeta; simpl.
  - left; split; [reflexivity | intros x []].
  - destruct (Z.ltb_spec (rank c0) (rank y)) as [Hlt | Hge].
    + destruct (IH y) as [[Hc Hall] | (l1 & l2 & Hl & Hr & H1 & H2)].
      * right. exists [], l. rewrite Hc. simpl.
        repeat split; [exact Hlt | intros x [] | exact Hall].
      * right. exists (y :: l1), l2. simpl.
        repeat split; [f_equal; exact Hl | lia | | exact H2].
        intros x [<- | Hx]; [exact Hr | apply H1, Hx].
    + destruct (IH c0) as [[Hc Hall] | (l1 & l2 & Hl & Hr & H1 & H2)].
      * left. split; [exact Hc |].
        intros x [<- | Hx]; [exact Hge | apply Hall, Hx].
      * right. exists (y :: l1), l2. simpl.
        repeat split; [f_equal; exact Hl | exact Hr | | exact H2].
        intros x [<- | Hx]; [lia | apply H1, Hx].
Qed.

Lemma max_by_rank_decomp (l : list card) (c : card) :
  max_by_rank l = Ok c ->
  exists l1 l2,
    l = l1 ++ c :: l2 /\
    (forall x, In x l1 -> rank x < rank c) /\
    (forall x, In x l2 -> rank x <= rank c).
Proof.
  destruct l as [| c0 l]; simpl; intros H; [discriminate |].
  injection H as <-.
  destruct (max_fold_decomp l c0) as [[Hc Hall] | (l1 & l2 & Hl & Hr & H1 & H2)].
  - exists [], l. rewrite Hc. simpl.
    repeat split; [intros x [] | exact Hall].
  - exists (c0 :: l1), l2. simpl.
    repeat split; [f_equal; exact Hl | | exact H2].
    intros x [<- | Hx]; [exact Hr | apply H1, Hx].
Qed.

Lemma max_by_rank_greatest (l : list card) (c : card) :
  max_by_rank l = Ok c -> forall x, In x l -> rank x <= rank c.
Proof.
  intros H x Hx.
  destruct (max_by_rank_decomp l c H) as (l1 & l2 & -> & H1 & H2).
  apply in_app_or in Hx. destruct Hx as [Hx | [<- | Hx]];
    [apply Z.lt_le_incl, H1, Hx | lia | apply H2, Hx].
Qed.

Lemma filter_nil_iff {A : Type} (f : A -> bool) (l : list A) :
  filter f l = [] <-> forall x, In x l -> f x = false.
Proof.
  induction l as [| a l IH]; simpl.
  - split; [intros _ x [] | reflexivity].
  - destruct (f a) eqn:E; split.
    + discriminate.
    + intros H. specialize (H a (or_introl eq_refl)). congruence.
    + intros H x [<- | Hx]; [exact E | apply IH; assumption].
    + intros H. apply IH. intros x Hx. apply H; right; exact Hx.
Qed.

(** X7. [max(playable, key=...)] returns the first card of greatest rank:
    every card before it in the list has a smaller rank, no card after it
    has a greater one; on the empty list it raises ValueError. *)
Theorem max_by_rank_first_greatest (l : list card) :
  match max_by_rank l with
  | Ok c =>
      exists l1 l2,
        l = l1 ++ c :: l2 /\
        (forall x, In x l1 -> rank x < rank c) /\
        (forall x, In x l2 -> rank x <= rank c)
  | Raise e => l = [] /\ e = ValueError_max
  end.
Proof.
  destruct (max_by_rank l) as [c | e] eqn:E.
  - apply max_by_rank_decomp, E.
  - destruct l; simpl in E; [injection E as <-; auto | discriminate].
Qed.

(** X8. The card played in a trick.  When the trick is played, the played
    card comes from the hand; it follows the led suit if the hand holds that
    suit, else it is trump if the hand holds trump; and no card of the hand
    that was playable on the same footing outranks it. *)
Theorem play_trick_card (trump_suit : string) (st st' : trick_state)
        (dealer_card : card) :
  play_trick trump_suit st dealer_card = Ok st' ->
  let hand := ts_player_hand st in
  let follows := fun x => suit x = suit dealer_card in
  exists play_card,
    In play_card hand /\
    remove play_card hand = Ok (ts_player_hand st') /\
    ((exists x, In x hand /\ follows x) ->
     follows play_card /\
     forall x, In x hand -> follows x -> rank x <= rank play_card) /\
    (~ (exists x, In x hand /\ follows x) ->
     (exists x, In x hand /\ suit x = trump_suit) ->
     suit play_card = trump_suit /\
     forall x, In x hand -> suit x = trump_suit -> rank x <= rank play_card) /\
    (~ (exists x, In x hand /\ follows x) ->
     ~ (exists x, In x hand /\ suit x = trump_suit) ->
     forall x, In x hand -> rank x <= rank play_card).
Proof.
  intros H hand follows.
  destruct (play_trick_inv _ _ _ _ H) as (c & Hmax & Hrem & _ & _).
  fold hand in Hmax, Hrem.
  exists c.
  pose proof (max_by_rank_In _ _ Hmax) as Hin.
  pose proof (max_by_rank_greatest _ _ Hmax) as Hgt.
  split; [eapply playable_cards_incl, Hin |]. split; [exact Hrem |].
  unfold playable_cards in Hin, Hgt.
  destruct (filter (fun x => String.eqb (suit x) (suit dealer_card)) hand)
    as [| a p] eqn:E1; cbn [is_empty] in Hin, Hgt.
  - assert (Hno : ~ exists x, In x hand /\ follows x).
    { intros (x & Hx & Hf).
      pose proof (proj1 (filter_nil_iff _ _) E1 x Hx) as Hx'. simpl in Hx'.
      apply String.eqb_neq in Hx'. contradiction. }
    destruct (filter (is_trump trump_suit) hand) as [| b q] eqn:E2;
      cbn [is_empty] in Hin, Hgt.
    + assert (Hnt : ~ exists x, In x hand /\ suit x = trump_suit).
      { intros (x & Hx & Hf).
        pose proof (proj1 (filter_nil_iff _ _) E2 x Hx) as Hx'.
        unfold is_trump in Hx'. apply String.eqb_neq in Hx'. contradiction. }
      repeat split; try contradiction. intros _ _. exact Hgt.
    + rewrite <- E2 in Hin, Hgt.
      split; [intros Hex; contradiction |]. split; [| intros _ Hnt; exfalso].
      * intros _ _. apply filter_In in Hin. destruct Hin as [_ Ht].
        split; [apply String.eqb_eq, Ht |].
        intros x Hx Hs. apply Hgt, filter_In. split; [exact Hx |].
        apply String.eqb_eq, Hs.
      * apply Hnt. exists b.
        assert (Hb : In b (filter (is_trump trump_suit) hand))
          by (rewrite E2; left; reflexivity).
        apply filter_In in Hb. destruct Hb as [Hb Ht].
        split; [exact Hb | apply String.eqb_eq, Ht].
  - rewrite <- E1 in Hin, Hgt.
    assert (Hyes : exists x, In x hand /\ follows x).
    { exists a.
      assert (Ha : In a (filter (fun x => String.eqb (suit x) (suit dealer_card)) hand))
        by (rewrite E1; left; reflexivity).
      apply filter_In in Ha. destruct Ha as [Ha Hs].
      split; [exact Ha | apply String.eqb_eq, Hs]. }
    split; [| split; intros Hno; contradiction].
    intros _. apply filter_In in Hin. destruct Hin as [_ Hs].
    split; [apply String.eqb_eq, Hs |].
    intros x Hx Hf. apply Hgt, filter_In. split; [exact Hx |].
    apply String.eqb_eq, Hf.
Qed.

Lemma play_trick_card_witness :
  let st := {| ts_player_hand := [(2, "D"); (14, "S"); (14, "C")];
               ts_tricks_won := 0; ts_used_trump := [] |} in
  exists play_card,
    In play_card [(2, "D"); (14, "S"); (14, "C")] /\
    remove play_card [(2, "D"); (14, "S"); (14, "C")] = Ok [(2, "D"); (14, "C")] /\
    suit play_card = "S".
Proof.
  destruct (play_trick_card "D"
              {| ts_player_hand := [(2, "D"); (14, "S"); (14, "C")];
                 ts_tricks_won := 0; ts_used_trump := [] |}
              {| ts_player_hand := [(2, "D"); (14, "C")];
                 ts_tricks_won := 1; ts_used_trump := [] |}
              (2, "S") eq_refl)
    as (c & Hin & Hrem & Hfollow & _).
  exists c. split; [exact Hin |]. split; [exact Hrem |].
  apply Hfollow. exists (14, "S"). simpl; auto.
Defined.

(** ** Cards are conserved *)

Lemma remove_perm (x : card) (l l' : list card) :
  remove x l = Ok l' -> Permutation (x :: l') l.
Proof.
  revert l'; induction l as [| y l IH]; simpl; intros l' H; [discriminate |].
  destruct (card_eqb y x) eqn:E.
  - injection H as <-. apply card_eqb_true in E; subst. reflexivity.
  - bind_inv H. injection H as <-.
    etransitivity; [apply perm_swap | apply perm_skip, IH, Ha].
Qed.

Lemma remove_not_In (x : card) (l : list card) (e : exn) :
  remove x l = Raise e -> ~ In x l /\ e = ValueError_remove.
Proof.
  induction l as [| y l IH]; simpl; intros H.
  - injection H as <-. auto.
  - destruct (card_eqb y x) eqn:E; [discriminate |].
    destruct (remove x l) as [l' | e'] eqn:Er; simpl in H; [discriminate |].
    injection H as <-. destruct (IH eq_refl) as [Hn He].
    split; [| exact He].
    intros [-> | Hin]; [rewrite card_eqb_refl in E; discriminate | contradiction].
Qed.

Lemma redraw_conserves (cards : list card) :
  forall hand rem hand' rem',
    redraw cards hand rem = Ok (hand', rem') ->
    exists drawn,
      rem = rem' ++ rev drawn /\
      List.length drawn = List.length cards /\
      Permutation (hand' ++ cards) (hand ++ drawn).
Proof.
  induction cards as [| c cs IH]; simpl; intros hand rem hand' rem' H.
  - injection H as <- <-. exists []; simpl. rewrite !app_nil_r. auto.
  - bind_inv H. rename a into h1. bind_inv H. destruct a as [d r].
    apply IH in H. destruct H as (drawn & Hr & Hlen & Hp).
    apply pop_inv in Ha0. apply remove_perm in Ha.
    exists (d :: drawn). simpl. repeat split.
    + rewrite Ha0, Hr, <- app_assoc. reflexivity.
    + f_equal; exact Hlen.
    + etransitivity; [symmetry; apply Permutation_middle |].
      etransitivity; [apply perm_skip, Hp |].
      rewrite <- app_assoc. simpl.
      etransitivity; [| apply Permutation_app_tail, Ha].
      reflexivity.
Qed.

Lemma redraw_keeps (cards : list card) :
  forall hand rem hand' rem' y,
    redraw cards hand rem = Ok (hand', rem') ->
    In y hand -> ~ In y cards -> In y hand'.
Proof.
  induction cards as [| c cs IH]; simpl; intros hand rem hand' rem' y H Hin Hn.
  - injection H as <- _. exact Hin.
  - bind_inv H. rename a into h1. bind_inv H. destruct a as [d r].
    apply (IH _ _ _ _ y H).
    + apply in_or_app; left. apply (remove_In_other c y hand h1 Ha Hin).
      intros ->. apply Hn; left; reflexivity.
    + intros Hy. apply Hn; right; exact Hy.
Qed.

Lemma played_cards_perm (trump : string) (dealer : list card) :
  forall hand played,
    played_cards trump hand dealer = Ok played ->
    exists rest,
      Permutation (played ++ rest) hand /\
      List.length hand = (List.length dealer + List.length rest)%nat.
Proof.
  induction dealer as [| d ds IH]; simpl; intros hand played H.
  - injection H as <-. exists hand; simpl; auto.
  - bind_inv H. rename a into c. bind_inv H. rename a into h1.
    bind_inv H. rename a into cs. injection H as <-.
    destruct (IH _ _ Ha1) as (rest & Hp & Hlen).
    exists rest. split.
    + simpl. etransitivity; [apply perm_skip, Hp | apply remove_perm, Ha0].
    + apply remove_length in Ha0. lia.
Qed.

(** X9. The redraw conserves cards: when it completes, the cards it drew are
    the last cards of the remaining deck, taken from the end, the remaining
    deck is left without them, and the new hand together with the exchanged
    cards holds exactly the cards of the old hand and the drawn ones. *)
Theorem redraw_conserves_cards (cards hand rem hand' rem' : list card) :
  redraw cards hand rem = Ok (hand', rem') ->
  exists drawn,
    rem = rem' ++ rev drawn /\
    List.length drawn = List.length cards /\
    Permutation (hand' ++ cards) (hand ++ drawn).
Proof. apply redraw_conserves. Qed.

(** The redraw fails only in two ways: ValueError when a card to
    exchange is not in the hand, IndexError when the remaining deck is
    empty. *)
Theorem redraw_errors (cards hand rem : list card) (e : exn) :
  redraw cards hand rem = Raise e ->
  e = ValueError_remove \/ e = IndexError_pop.
Proof.
  revert hand rem; induction cards as [| c cs IH]; simpl; intros hand rem H;
    [discriminate |].
  destruct (remove c hand) as [h1 | e1] eqn:E1; simpl in H.
  - destruct (pop rem) as [[d r] | e2] eqn:E2; simpl in H.
    + apply (IH _ _ H).
    + injection H as <-. right. apply (pop_Raise_inv _ _ E2).
  - injection H as <-. left. apply (remove_not_In _ _ _ E1).
Qed.

Section TrialCards.

Variable G : Type.
Variable shuffle : G -> list card -> list card * G.

(** X10. In a completed trial the redraw gives up no trump card and no card
    of rank 10 or more: every such card of the initial hand is in the hand
    that goes to the tricks. *)
Theorem redraw_keeps_trump_and_high (g g' : G) (t : Trial) (c : card) :
  run_trial shuffle g = Ok (t, g') ->
  In c (t_initial_hand t) ->
  suit c = t_trump_suit t \/ 10 <= rank c ->
  In c (t_drawn_hand t).
Proof.
  intros H Hin Hc. apply run_trial_inv in H. cbv zeta in H.
  destruct H as (dl & st & _ & _ & _ & Hih & _ & Hcd & Hdraw & _).
  rewrite <- Hih in Hcd, Hdraw.
  destruct (fst (should_draw (t_initial_hand t) (t_trump_suit t)));
    [| rewrite Hdraw; exact Hin].
  destruct Hdraw as [rem' Hr].
  apply (redraw_keeps _ _ _ _ _ c Hr Hin).
  rewrite Hcd. unfold should_draw.
  destruct (len _ >=? 2); simpl; [tauto |].
  rewrite filter_filter, filter_In. intros [_ Hf].
  apply andb_true_iff in Hf. destruct Hf as [Hnt Hlow].
  apply negb_true_iff in Hnt. unfold is_trump in Hnt.
  apply String.eqb_neq in Hnt. apply Z.ltb_lt in Hlow.
  destruct Hc; [contradiction | lia].
Qed.

(** X11. In a completed trial the three cards played are the three cards of
    the hand after the redraw, in some order. *)
Theorem played_cards_are_the_hand (g g' : G) (t : Trial) :
  run_trial shuffle g = Ok (t, g') ->
  exists played,
    played_cards (t_trump_suit t) (t_drawn_hand t) (t_dealer_hand t) = Ok played /\
    Permutation played (t_drawn_hand t).
Proof.
  intros H. apply run_trial_shape in H.
  destruct H as (Ld & _ & Lh & played & Hp & _).
  exists played. split; [exact Hp |].
  destruct (played_cards_perm _ _ _ _ Hp) as (rest & Hperm & Hlen).
  destruct rest; [| simpl in Hlen; lia].
  rewrite app_nil_r in Hperm. exact Hperm.
Qed.

End TrialCards.

Lemma redraw_conserves_cards_witness :
  exists drawn,
    [(12, "S"); (13, "S"); (14, "S")] = [(12, "S")] ++ rev drawn /\
    List.length drawn = List.length [(2, "H"); (4, "D")] /\
    Permutation ([(3, "S"); (14, "S"); (13, "S")] ++ [(2, "H"); (4, "D")])
                ([(2, "H"); (3, "S"); (4, "D")] ++ drawn).
Proof.
  apply (redraw_conserves_cards
           [(2, "H"); (4, "D")] [(2, "H"); (3, "S"); (4, "D")]
           [(12, "S"); (13, "S"); (14, "S")]
           [(3, "S"); (14, "S"); (13, "S")] [(12, "S")]).
  reflexivity.
Defined.

Lemma redraw_errors_witness :
  IndexError_pop = ValueError_remove \/ IndexError_pop = IndexError_pop.
Proof.
  apply (redraw_errors [(2, "H"); (4, "D")] [(2, "H"); (3, "S"); (4, "D")]
                       [(14, "S")] IndexError_pop).
  reflexivity.
Defined.

Lemma redraw_keeps_trump_and_high_witness :
  In (2, "D") (t_drawn_hand deck_order_trial).
Proof.
  apply (redraw_keeps_trump_and_high (list (list card)) scripted_shuffle [] []
                                     deck_order_trial (2, "D")).
  - vm_compute; reflexivity.
  - simpl; auto.
  - left; reflexivity.
Defined.

Lemma played_cards_are_the_hand_witness :
  exists played,
    played_cards "D" [(2, "D"); (14, "S"); (14, "C")] [(2, "S"); (3, "H"); (3, "D")]
    = Ok played /\
    Permutation played [(2, "D"); (14, "S"); (14, "C")].
Proof.
  apply (played_cards_are_the_hand (list (list card)) scripted_shuffle [] []
                                   deck_order_trial).
  vm_compute; reflexivity.
Defined.

(** ** Payouts and flags of a returned [GameResult] *)

Lemma payouts_3_rows (used_trump : list card) :
  In (payouts 3 used_trump) payout_rows.
Proof.
  rewrite payouts_3. unfold payout_rows.
  destruct (is_q_k_a used_trump && _); [simpl; tauto |].
  destruct (len used_trump =? 3); simpl; tauto.
Qed.

Lemma used_trump_one_suit (trump : string) (played : list card) :
  filter (is_trump trump) played <> [] ->
  len_set string_dec (map suit (filter (is_trump trump) played)) = 1.
Proof.
  intros Hne. apply (len_set_one _ _ trump).
  - apply Forall_forall. intros s Hs. apply in_map_iff in Hs.
    destruct Hs as (c & <- & Hc). apply filter_In in Hc.
    destruct Hc as [_ Hc]. apply String.eqb_eq, Hc.
  - intros E. apply map_eq_nil in E. contradiction.
Qed.

Section ResultFacts.

Variable G : Type.
Variable shuffle : G -> list card -> list card * G.

(** X12. The three trick wagers of a returned [GameResult] always form one
    of the six rows (-1,-1,-1), (1,0,0), (1,0,1), (1,1,2), (1,10,2),
    (1,500,2), and its OG3 category and payout one line of the paytable. *)
Theorem game_result_rows (g g' : G) (r : GameResult) :
  play_game shuffle g = Ok (r, g') ->
  In (ante_result r, booray_result r, play_result r) payout_rows /\
  In (og3_type r, og3_payout r) og3_paytable.
Proof.
  intros H. apply play_game_inv in H. destruct H as (t & Ht & ->).
  split.
  - rewrite game_result_payouts.
    pose proof (run_trial_shape G shuffle g g' t Ht)
      as (Ld & _ & _ & played & _ & _ & _ & Htw & _).
    pose proof (tricks_scored_bounds (t_trump_suit t) played (t_dealer_hand t)) as Hb.
    unfold len in Hb. rewrite Ld, <- Htw in Hb. simpl in Hb.
    assert (Hc : t_tricks_won t = 0 \/ t_tricks_won t = 1 \/ t_tricks_won t = 2
                 \/ t_tricks_won t = 3) by lia.
    destruct Hc as [-> | [-> | [-> | ->]]];
      [rewrite payouts_0 | rewrite payouts_1 | rewrite payouts_2
       | apply payouts_3_rows]; unfold payout_rows; simpl; tauto.
  - apply run_trial_inv in Ht. cbv zeta in Ht.
    destruct Ht as (dl & st & _ & _ & _ & _ & Hog3 & _).
    apply evaluate_og3_cases in Hog3. cbv zeta in Hog3.
    assert (E : (og3_type (game_result t), og3_payout (game_result t)) = t_og3 t).
    { unfold game_result.
      destruct (payouts (t_tricks_won t) (t_used_trump t)) as [[a b] p]; simpl.
      destruct (t_og3 t); reflexivity. }
    rewrite E. unfold og3_paytable.
    destruct Hog3 as [(-> & _) | [(-> & _) | [(-> & _) | [(-> & _) | [(-> & _) |
                     [(-> & _) | (-> & _)]]]]]]; simpl; tauto.
Qed.

(** X13. The flags and the booray payout of a returned [GameResult] agree:
    booray pays 500 exactly when 3 tricks were won and [used_akq_trump] is
    set, and 10 exactly when 3 tricks were won, [used_all_trump] is set and
    [used_akq_trump] is not.  (The payout block also tests that the trump
    cards are of one suit; being trump, they always are.) *)
Theorem booray_result_flags (g g' : G) (r : GameResult) :
  play_game shuffle g = Ok (r, g') ->
  (booray_result r = 500 <-> tricks_won r = 3 /\ used_akq_trump r = true) /\
  (booray_result r = 10 <->
   tricks_won r = 3 /\ used_all_trump r = true /\ used_akq_trump r = false).
Proof.
  intros H. apply play_game_inv in H. destruct H as (t & Ht & ->).
  rewrite game_result_tricks_won.
  destruct (game_result_flags t) as (-> & -> & _).
  pose proof (game_result_payouts t) as Hp.
  pose proof (run_trial_shape G shuffle g g' t Ht)
    as (Ld & _ & _ & played & _ & Lp & Hu & Htw & _).
  pose proof (tricks_scored_bounds (t_trump_suit t) played (t_dealer_hand t)) as Hb.
  unfold len in Hb. rewrite Ld, <- Htw in Hb. simpl in Hb.
  assert (Hc : t_tricks_won t = 0 \/ t_tricks_won t = 1 \/ t_tricks_won t = 2
               \/ t_tricks_won t = 3) by lia.
  destruct Hc as [E | [E | [E | E]]]; rewrite E in Hp |- *;
    [rewrite payouts_0 in Hp | rewrite payouts_1 in Hp | rewrite payouts_2 in Hp |];
    try (injection Hp as _ Hb' _; rewrite Hb';
         split; split; intros Hx; try discriminate Hx;
         destruct Hx as [Hx _]; discriminate Hx).
  rewrite payouts_3 in Hp. injection Hp as _ Hb' _. rewrite Hb'. clear Hb'.
  destruct (Z.eqb_spec (len (t_used_trump t)) 3) as [E3 | E3].
  - assert (H1 : len_set string_dec (map suit (t_used_trump t)) = 1).
    { rewrite Hu. apply used_trump_one_suit. rewrite <- Hu.
      intros En. rewrite En in E3. discriminate E3. }
    rewrite H1. cbn [Z.eqb Pos.eqb]. rewrite andb_true_r.
    destruct (is_q_k_a (t_used_trump t)); split; split; intros Hx;
      try discriminate Hx; try (repeat split; reflexivity);
      destruct Hx as (_ & Hx); try discriminate Hx;
      destruct Hx as (_ & Hx); discriminate Hx.
  - destruct (is_q_k_a (t_used_trump t)) eqn:Eq.
    + apply is_q_k_a_length in Eq. unfold len in E3. lia.
    + cbn [andb]. split; split; intros Hx; try discriminate Hx;
        destruct Hx as (_ & Hx); try discriminate Hx;
        destruct Hx as (Hx & _); discriminate Hx.
Qed.

End ResultFacts.

Lemma game_result_rows_witness :
  In (ante_result (game_result royal_trial), booray_result (game_result royal_trial),
      play_result (game_result royal_trial)) payout_rows /\
  In (og3_type (game_result royal_trial), og3_payout (game_result royal_trial))
     og3_paytable.
Proof.
  apply (game_result_rows (list (list card)) scripted_shuffle royal_script []
                          (game_result royal_trial)).
  vm_compute; reflexivity.
Defined.

Lemma booray_result_flags_witness :
  (booray_result (game_result royal_trial) = 500 <->
   tricks_won (game_result royal_trial) = 3 /\
   used_akq_trump (game_result royal_trial) = true) /\
  (booray_result (game_result royal_trial) = 10 <->
   tricks_won (game_result royal_trial) = 3 /\
   used_all_trump (game_result royal_trial) = true /\
   used_akq_trump (game_result royal_trial) = false).
Proof.
  apply (booray_result_flags (list (list card)) scripted_shuffle royal_script []
                             (game_result royal_trial)).
  vm_compute; reflexivity.
Defined.

(** ** No card is duplicated or lost *)

Lemma should_draw_false_nil (hand : list card) (trump : string) :
  fst (should_draw hand trump) = false -> snd (should_draw hand trump) = [].
Proof.
  unfold should_draw. destruct (len _ >=? 2); simpl; [reflexivity |].
  destruct (filter _ (filter _ hand)) as [| c l]; [reflexivity |].
  unfold len; simpl List.length. intros H. rewrite Z.gtb_ltb in H.
  apply Z.ltb_ge in H. lia.
Qed.

Lemma deck_ranks (c : card) : In c deck -> 2 <= rank c <= 14.
Proof.
  assert (H : forallb (fun c => (2 <=? rank c) && (rank c <=? 14)) deck = true)
    by (vm_compute; reflexivity).
  rewrite forallb_forall in H. intros Hc. apply H in Hc.
  apply andb_true_iff in Hc. lia.
Qed.

Section Integrity.

Variable G : Type.
Variable shuffle : G -> list card -> list card * G.
Hypothesis shuffle_perm : forall g l, Permutation (fst (shuffle g l)) l.

Lemma trial_deck_partition (g g' : G) (t : Trial) :
  run_trial shuffle g = Ok (t, g') ->
  exists rest,
    Permutation
      (t_drawn_hand t ++ t_dealer_hand t ++ t_cards_to_draw t ++ rest) deck.
Proof.
  intros H. apply run_trial_inv in H. cbv zeta in H.
  destruct H as (dl & st & _ & _ & Hdh & Hih & _ & Hcd & Hdraw & _).
  destruct (remaining_deck_spec G shuffle shuffle_perm g) as [P1 _].
  cbv zeta in P1.
  set (ph := fst (fst (deal_cards shuffle g))) in *.
  set (dh := snd (fst (deal_cards shuffle g))) in *.
  set (g1 := snd (deal_cards shuffle g)) in *.
  rewrite Hdh.
  destruct (fst (should_draw ph (t_trump_suit t))) eqn:Ed.
  - destruct Hdraw as [rem' Hr].
    pose proof (shuffle_perm g1 (remaining_deck ph dh)) as P2.
    destruct (redraw_conserves _ _ _ _ _ Hr) as (drawn & Hrem & _ & P3).
    exists rem'.
    etransitivity; [apply Permutation_app_head, Permutation_app_swap_app |].
    rewrite app_assoc.
    etransitivity; [apply Permutation_app_tail, P3 |].
    rewrite <- app_assoc.
    etransitivity; [apply Permutation_app_head, Permutation_app_swap_app |].
    rewrite app_assoc.
    etransitivity; [| exact P1].
    apply Permutation_app_head.
    etransitivity; [| exact P2]. rewrite Hrem.
    etransitivity; [apply Permutation_app_comm |].
    apply Permutation_app_head, Permutation_rev.
  - rewrite Hdraw, Hcd, (should_draw_false_nil _ _ Ed). simpl.
    exists (remaining_deck ph dh). rewrite app_assoc. exact P1.
Qed.

(** X14. Under a generator that permutes, a completed trial splits the deck:
    the hand after the redraw, the dealer's hand, the exchanged cards and the
    cards never dealt are, together, exactly the 52 cards.  In particular the
    cards that meet in the tricks are 6 distinct cards of the deck. *)
Theorem trial_splits_the_deck (g g' : G) (t : Trial) :
  run_trial shuffle g = Ok (t, g') ->
  (exists rest,
      Permutation
        (t_drawn_hand t ++ t_dealer_hand t ++ t_cards_to_draw t ++ rest) deck) /\
  NoDup (t_drawn_hand t ++ t_dealer_hand t) /\
  List.length (t_drawn_hand t ++ t_dealer_hand t) = 6%nat.
Proof.
  intros H.
  destruct (trial_deck_partition g g' t H) as [rest Hp].
  split; [exists rest; exact Hp |].
  split.
  - pose proof (Permutation_NoDup (Permutation_sym Hp) deck_NoDup) as Hnd.
    rewrite app_assoc in Hnd. apply NoDup_app_remove_r in Hnd. exact Hnd.
  - apply run_trial_shape in H. destruct H as (Ld & _ & Lh & _).
    rewrite length_app. lia.
Qed.

(** X15. A deal gives the player and the dealer 3 cards each, 6 distinct
    cards of the deck, under a generator that permutes. *)
Theorem deal_cards_distinct (g : G) :
  let player_hand := fst (fst (deal_cards shuffle g)) in
  let dealer_hand := snd (fst (deal_cards shuffle g)) in
  List.length player_hand = 3%nat /\ List.length dealer_hand = 3%nat /\
  NoDup (player_hand ++ dealer_hand) /\ incl (player_hand ++ dealer_hand) deck.
Proof. apply deal_cards_dealt, shuffle_perm. Qed.

End Integrity.

Lemma trial_splits_the_deck_witness :
  (exists rest,
      Permutation
        (t_drawn_hand deck_order_trial ++ t_dealer_hand deck_order_trial
         ++ t_cards_to_draw deck_order_trial ++ rest) deck) /\
  NoDup (t_drawn_hand deck_order_trial ++ t_dealer_hand deck_order_trial) /\
  List.length (t_drawn_hand deck_order_trial ++ t_dealer_hand deck_order_trial)
  = 6%nat.
Proof.
  apply (trial_splits_the_deck (list (list card)) scripted_shuffle
                               scripted_shuffle_perm [] [] deck_order_trial).
  vm_compute; reflexivity.
Defined.

Lemma deal_cards_distinct_witness :
  let player_hand := fst (fst (deal_cards scripted_shuffle royal_script)) in
  let dealer_hand := snd (fst (deal_cards scripted_shuffle royal_script)) in
  List.length player_hand = 3%nat /\ List.length dealer_hand = 3%nat /\
  NoDup (player_hand ++ dealer_hand) /\ incl (player_hand ++ dealer_hand) deck.
Proof.
  exact (deal_cards_distinct (list (list card)) scripted_shuffle
                             scripted_shuffle_perm royal_script).
Defined.

(** ** Q, K, A of trump takes every trick *)

Lemma NoDup_app_disjoint {A : Type} (l l' : list A) (x : A) :
  NoDup (l ++ l') -> In x l -> In x l' -> False.
Proof.
  induction l as [| a l IH]; simpl; intros Hnd Hin Hin'; [contradiction |].
  inversion Hnd as [| ? ? Hna Hnd']; subst.
  destruct Hin as [-> | Hin]; [| apply (IH Hnd' Hin Hin')].
  apply Hna, in_or_app; right; exact Hin'.
Qed.

Lemma forallb_trump_suits (trump : string) (played : list card) :
  forallb (is_trump trump) played = true ->
  Forall (fun s => s = trump) (map suit played).
Proof.
  rewrite forallb_forall. intros H. apply Forall_forall.
  intros s Hs. apply in_map_iff in Hs. destruct Hs as (c & <- & Hc).
  apply String.eqb_eq, (H c Hc).
Qed.

Lemma q_k_a_trump_beats (trump : string) (played : list card) (p d : card) :
  forallb (is_trump trump) played = true ->
  is_q_k_a played = true ->
  In p played -> ~ In d played -> 2 <= rank d <= 14 ->
  evaluate_trick p d trump = true.
Proof.
  intros Hall Hq Hp Hd Hrd.
  pose proof (forallb_trump_suits _ _ Hall) as Hsuits.
  pose proof (one_suit_cards trump played Hsuits) as Hplayed.
  unfold is_q_k_a in Hq.
  destruct (list_eq_dec Z.eq_dec (sorted (map rank played)) [12; 13; 14])
    as [E |]; [| discriminate].
  pose proof (sorted_Permutation (map rank played)) as Hperm. rewrite E in Hperm.
  assert (Hin : forall k, In k [12; 13; 14] -> In (k, trump) played).
  { intros k Hk. rewrite Hplayed.
    apply (in_map (fun r => (r, trump))), (Permutation_in _ Hperm), Hk. }
  assert (Hrp : 12 <= rank p).
  { assert (Hk : In (rank p) [12; 13; 14])
      by (apply (Permutation_in _ (Permutation_sym Hperm)), in_map, Hp).
    simpl in Hk. lia. }
  assert (Hsp : suit p = trump).
  { rewrite forallb_forall in Hall. apply String.eqb_eq, (Hall p Hp). }
  unfold evaluate_trick. rewrite Hsp, String.eqb_refl.
  destruct (String.eqb_spec trump (suit d)) as [Hs | _]; [| reflexivity].
  apply Z.gtb_gt.
  destruct (Z_lt_le_dec (rank d) 12) as [Hlt | Hge]; [lia |].
  exfalso. apply Hd.
  assert (Ed : d = (rank d, trump)) by (destruct d; simpl in *; congruence).
  rewrite Ed. apply Hin. simpl. lia.
Qed.

Section AkqTrump.

Variable G : Type.
Variable shuffle : G -> list card -> list card * G.
Hypothesis shuffle_perm : forall g l, Permutation (fst (shuffle g l)) l.

(** X16. Under a generator that permutes, a returned [GameResult] with
    [used_akq_trump] set has 3 tricks won and booray paying 500: a player who
    plays Q, K, A of trump loses no trick. *)
Theorem akq_trump_wins_all (g g' : G) (r : GameResult) :
  play_game shuffle g = Ok (r, g') ->
  used_akq_trump r = true ->
  tricks_won r = 3 /\ booray_result r = 500.
Proof.
  intros H Hakq. apply play_game_inv in H. destruct H as (t & Ht & ->).
  rewrite game_result_tricks_won.
  destruct (game_result_flags t) as (_ & Hf & _). rewrite Hf in Hakq. clear Hf.
  destruct (Z.eqb_spec (len (t_used_trump t)) 3) as [E3 | _]; [| discriminate].
  pose proof (game_result_payouts t) as Hpay.
  destruct (trial_deck_partition G shuffle shuffle_perm g g' t Ht) as [rest Hdeck].
  pose proof (run_trial_shape G shuffle g g' t Ht)
    as (Ld & _ & Lh & played & Hpc & Lp & Hu & Htw & _).
  assert (Hall : forallb (is_trump (t_trump_suit t)) played = true)
    by (apply (filter_three_iff _ _ Lp); rewrite <- Hu; exact E3).
  assert (Hup : t_used_trump t = played)
    by (rewrite Hu; apply forallb_filter_id, Hall).
  rewrite Hup in Hakq.
  destruct (played_cards_perm _ _ _ _ Hpc) as (rest' & Hperm & Hlen).
  destruct rest'; [| simpl in Hlen; lia]. rewrite app_nil_r in Hperm.
  assert (Hnd : NoDup (played ++ t_dealer_hand t)).
  { apply (Permutation_NoDup
             (Permutation_app_tail _ (Permutation_sym Hperm))).
    pose proof (Permutation_NoDup (Permutation_sym Hdeck) deck_NoDup) as Hn.
    rewrite app_assoc in Hn. apply NoDup_app_remove_r in Hn. exact Hn. }
  assert (Hwin : forall p d, In p played -> In d (t_dealer_hand t) ->
                             evaluate_trick p d (t_trump_suit t) = true).
  { intros p d Hp Hd.
    apply (q_k_a_trump_beats _ played); try assumption.
    - intros Hdp. apply (NoDup_app_disjoint _ _ d Hnd Hdp Hd).
    - apply deck_ranks, (Permutation_in _ Hdeck).
      apply in_or_app; right. apply in_or_app; left. exact Hd. }
  assert (H3 : t_tricks_won t = 3).
  { rewrite Htw.
    destruct played as [| p1 [| p2 [| p3 [| p4 l]]]]; try discriminate Lp.
    destruct (t_dealer_hand t) as [| d1 [| d2 [| d3 [| d4 l]]]];
      try discriminate Ld.
    rewrite !tricks_scored_cons.
    rewrite !Hwin by (simpl; auto). reflexivity. }
  split; [exact H3 |].
  rewrite H3, payouts_3, Hup, Hakq in Hpay.
  assert (H1 : len_set string_dec (map suit played) = 1).
  { apply (len_set_one _ _ (t_trump_suit t));
      [apply forallb_trump_suits, Hall |].
    intros E. apply map_eq_nil in E. rewrite E in Lp. simpl in Lp. lia. }
  rewrite H1 in Hpay. injection Hpay as _ Hb _. exact Hb.
Qed.

End AkqTrump.

Lemma akq_trump_wins_all_witness :
  tricks_won (game_result royal_trial) = 3 /\
  booray_result (game_result royal_trial) = 500.
Proof.
  apply (akq_trump_wins_all (list (list card)) scripted_shuffle
                            scripted_shuffle_perm royal_script []
                            (game_result royal_trial)).
  - vm_compute; reflexivity.
  - reflexivity.
Defined.

(** ** The trial loop of [run_simulation] *)

Lemma get_incr (k k' : string) (d : list (string * Z)) :
  get k' 0 (incr k d) = get k' 0 d + (if String.eqb k k' then 1 else 0).
Proof.
  induction d as [| [k0 v] d IH]; simpl.
  - destruct (String.eqb k k'); reflexivity.
  - destruct (String.eqb_spec k0 k) as [-> | Hk]; simpl.
    + destruct (String.eqb k k'); lia.
    + destruct (String.eqb_spec k0 k') as [-> | Hk'].
      * destruct (String.eqb_spec k k'); [congruence | lia].
      * exact IH.
Qed.

Lemma get_append_to (k k' : string) (x : Z) (d : list (string * list Z)) :
  get k' [] (append_to k x d) =
  if String.eqb k k' then get k' [] d ++ [x] else get k' [] d.
Proof.
  induction d as [| [k0 v] d IH]; simpl.
  - destruct (String.eqb k k'); reflexivity.
  - destruct (String.eqb_spec k0 k) as [-> | Hk]; simpl.
    + destruct (String.eqb k k'); reflexivity.
    + destruct (String.eqb_spec k0 k') as [-> | Hk'].
      * destruct (String.eqb_spec k k'); [congruence | reflexivity].
      * exact IH.
Qed.

Lemma incr_keys (k : string) (d : list (string * Z)) :
  map fst (incr k d) = if existsb (String.eqb k) (map fst d)
                       then map fst d else map fst d ++ [k].
Proof.
  induction d as [| [k0 v] d IH]; simpl; [reflexivity |].
  rewrite (String.eqb_sym k k0).
  destruct (String.eqb k0 k); simpl; [reflexivity |].
  rewrite IH. destruct (existsb _ _); reflexivity.
Qed.

Lemma incr_NoDup (k : string) (d : list (string * Z)) :
  NoDup (map fst d) -> NoDup (map fst (incr k d)).
Proof.
  intros Hnd. rewrite incr_keys.
  destruct (existsb (String.eqb k) (map fst d)) eqn:E; [exact Hnd |].
  apply NoDup_app; [exact Hnd | repeat constructor; intros [] |].
  intros a Ha [<- | []].
  assert (Hex : existsb (String.eqb k) (map fst d) = true)
    by (apply existsb_exists; exists k; split; [exact Ha | apply String.eqb_refl]).
  congruence.
Qed.

Lemma incr_entries (P : string * Z -> Prop) (k : string) (d : list (string * Z)) :
  (forall v, P (k, v) -> P (k, v + 1)) -> P (k, 0 + 1) ->
  Forall P d -> Forall P (incr k d).
Proof.
  intros Hstep Hnew. induction d as [| [k0 v] d IH]; simpl; intros Hall.
  - repeat constructor. exact Hnew.
  - inversion Hall as [| ? ? Hp Hd]; subst.
    destruct (String.eqb_spec k0 k) as [-> | Hk]; constructor; auto.
Qed.

Lemma total_incr (labels : list string) (k : string) (d : list (string * Z)) :
  total labels (incr k d) =
  total labels d + Z.of_nat (count_occ string_dec labels k).
Proof.
  unfold total. induction labels as [| k' labels IH]; simpl; [lia |].
  rewrite IH, get_incr.
  destruct (string_dec k' k) as [-> | Hne].
  - rewrite String.eqb_refl. lia.
  - destruct (String.eqb_spec k k'); [congruence | lia].
Qed.

Lemma tricks_label_facts (k : string) :
  In k tricks_labels ->
  count_occ string_dec tricks_labels k = 1%nat /\
  count_occ string_dec og3_labels k = 0%nat /\
  String.eqb k "all_trump" = false /\ String.eqb k "akq_trump" = false /\
  In k all_labels.
Proof.
  intros Hk. split; [| split; [| split; [| split]]];
    [| | | | unfold all_labels; apply in_or_app; left; exact Hk];
    simpl in Hk; decompose [or] Hk; subst; try contradiction; reflexivity.
Qed.

Lemma og3_label_facts (k : string) :
  In k og3_labels ->
  count_occ string_dec tricks_labels k = 0%nat /\
  count_occ string_dec og3_labels k = 1%nat /\
  String.eqb k "all_trump" = false /\ String.eqb k "akq_trump" = false /\
  String.eqb k "tricks_0" = false /\
  In k all_labels.
Proof.
  intros Hk. split; [| split; [| split; [| split; [| split]]]];
    [| | | | | unfold all_labels; apply in_or_app; right; apply in_or_app;
               left; exact Hk];
    simpl in Hk; decompose [or] Hk; subst; try contradiction; reflexivity.
Qed.

Section SimulationFacts.

Variable G : Type.
Variable shuffle : G -> list card -> list card * G.

(** What the loop body relies on in a returned [GameResult]. *)
Lemma play_game_result_facts (g g' : G) (r : GameResult) :
  play_game shuffle g = Ok (r, g') ->
  (tricks_won r = 0 \/ tricks_won r = 1 \/ tricks_won r = 2 \/ tricks_won r = 3) /\
  In (og3_type r, og3_payout r) og3_paytable /\
  (used_akq_trump r = true -> used_all_trump r = true) /\
  (ante_result r = -1 <-> tricks_won r = 0).
Proof.
  intros H. apply play_game_inv in H. destruct H as (t & Ht & ->).
  rewrite game_result_tricks_won.
  pose proof (run_trial_shape G shuffle g g' t Ht)
    as (Ld & _ & _ & played & _ & _ & _ & Htw & _).
  pose proof (tricks_scored_bounds (t_trump_suit t) played (t_dealer_hand t)) as Hb.
  unfold len in Hb. rewrite Ld, <- Htw in Hb. simpl in Hb.
  assert (Hc : t_tricks_won t = 0 \/ t_tricks_won t = 1 \/ t_tricks_won t = 2
               \/ t_tricks_won t = 3) by lia.
  split; [exact Hc |]. split; [| split].
  - apply run_trial_inv in Ht. cbv zeta in Ht.
    destruct Ht as (dl & st & _ & _ & _ & _ & Hog3 & _).
    apply evaluate_og3_cases in Hog3. cbv zeta in Hog3.
    assert (E : (og3_type (game_result t), og3_payout (game_result t)) = t_og3 t).
    { unfold game_result.
      destruct (payouts (t_tricks_won t) (t_used_trump t)) as [[a b] p]; simpl.
      destruct (t_og3 t); reflexivity. }
    rewrite E. unfold og3_paytable.
    destruct Hog3 as [(-> & _) | [(-> & _) | [(-> & _) | [(-> & _) | [(-> & _) |
                     [(-> & _) | (-> & _)]]]]]]; simpl; tauto.
  - destruct (game_result_flags t) as (-> & -> & _).
    destruct (len (t_used_trump t) =? 3); [reflexivity | discriminate].
  - pose proof (game_result_payouts t) as Hp.
    destruct Hc as [E | [E | [E | E]]]; rewrite E in Hp |- *;
      [rewrite payouts_0 in Hp | rewrite payouts_1 in Hp
       | rewrite payouts_2 in Hp | rewrite payouts_3 in Hp];
      injection Hp as Ha _ _; rewrite Ha; split; intros Hx;
      (reflexivity || discriminate Hx).
Qed.

Lemma tally_tallied (g g' : G) (r : GameResult) (n : Z)
      (acc : list (string * Z) * list (string * list Z)) :
  play_game shuffle g = Ok (r, g') ->
  tallied n acc -> tallied (n + 1) (tally r acc).
Proof.
  intros Hr Hacc. destruct acc as [results payouts].
  destruct (play_game_result_facts g g' r Hr) as (Htw & Hog3 & Hflags & Hante).
  destruct Hacc as (T1 & T2 & T3 & T4 & T5 & T6 & T7 & T8). simpl in T1, T2, T3, T4, T5, T6, T7, T8.
  assert (Hkt : In ("tricks_" ++ str (tricks_won r))%string tricks_labels).
  { destruct Htw as [-> | [-> | [-> | ->]]]; simpl; tauto. }
  assert (Hko : In ("og3_" ++ og3_type r)%string og3_labels).
  { unfold og3_labels.
    apply (in_map (fun kv => ("og3_" ++ fst kv)%string) _ _ Hog3). }
  destruct (tricks_label_facts _ Hkt) as (A1 & A2 & A3 & A4 & A5).
  destruct (og3_label_facts _ Hko) as (B1 & B2 & B3 & B4 & B5 & B6).
  set (kt := ("tricks_" ++ str (tricks_won r))%string) in *.
  set (ko := ("og3_" ++ og3_type r)%string) in *.
  assert (Hresults :
            let results' :=
              (if used_akq_trump r
               then incr "akq_trump"
               else fun d => d)
                ((if used_all_trump r then incr "all_trump" else fun d => d)
                   (incr ko (incr kt results))) in
            fst (tally r (results, payouts)) = results').
  { unfold tally. fold kt ko.
    destruct (used_all_trump r), (used_akq_trump r); reflexivity. }
  cbv zeta in Hresults.
  unfold tallied. rewrite Hresults. clear Hresults.
  assert (Hpay : snd (tally r (results, payouts)) =
                 append_to "og3" (og3_payout r)
                   (append_to "play" (play_result r)
                      (append_to "booray" (booray_result r)
                         (append_to "ante" (ante_result r) payouts))))
    by reflexivity.
  rewrite Hpay. clear Hpay. cbv zeta.
  split; [| split; [| split; [| split; [| split; [| split; [| split]]]]]].
  - destruct (used_akq_trump r), (used_all_trump r);
      rewrite !total_incr, ?A1, ?B1; simpl; lia.
  - destruct (used_akq_trump r), (used_all_trump r);
      rewrite !total_incr, ?A2, ?B2; simpl; lia.
  - destruct (used_akq_trump r) eqn:Ea, (used_all_trump r) eqn:Eb;
      try (specialize (Hflags eq_refl); discriminate Hflags);
      rewrite !get_incr, ?A3, ?A4, ?B3, ?B4; simpl; lia.
  - destruct (used_akq_trump r) eqn:Ea, (used_all_trump r) eqn:Eb;
      rewrite !get_incr, ?A3, ?A4, ?B3, ?B4; simpl; lia.
  - intros k Hk. specialize (T5 k Hk). unfold len in *.
    simpl in Hk. decompose [or] Hk; subst; try contradiction;
      rewrite !get_append_to; simpl; rewrite length_app; simpl; lia.
  - rewrite !get_append_to. simpl. rewrite count_occ_app. simpl.
    assert (Hg : get "tricks_0" 0
                     ((if used_akq_trump r then incr "akq_trump" else fun d => d)
                        ((if used_all_trump r then incr "all_trump" else fun d => d)
                           (incr ko (incr kt results))))
                 = get "tricks_0" 0 results
                   + (if String.eqb kt "tricks_0" then 1 else 0)).
    { destruct (used_akq_trump r), (used_all_trump r);
        rewrite !get_incr, ?B5; simpl; lia. }
    rewrite Hg. unfold kt.
    destruct Htw as [E | [E | [E | E]]]; rewrite E in *; simpl;
      destruct (Z.eq_dec (ante_result r) (-1)) as [Ha | Ha];
      try (apply Hante in Ha; discriminate Ha);
      try (exfalso; apply Ha, Hante; reflexivity); lia.
  - destruct (used_akq_trump r), (used_all_trump r);
      repeat apply incr_NoDup; exact T7.
  - assert (Hstep : forall k, In k all_labels -> forall d,
                 Forall (fun kv => In (fst kv) all_labels /\ 1 <= snd kv) d ->
                 Forall (fun kv => In (fst kv) all_labels /\ 1 <= snd kv)
                        (incr k d)).
    { intros k Hk d Hd. apply incr_entries; [| | exact Hd]; simpl.
      - intros v [_ Hv]. split; [exact Hk | lia].
      - split; [exact Hk | lia]. }
    assert (Hall : In "all_trump" all_labels) by (vm_compute; tauto).
    assert (Hakq : In "akq_trump" all_labels) by (vm_compute; tauto).
    destruct (used_akq_trump r), (used_all_trump r); auto 10.
Qed.

Lemma trial_loop_tallied (n : nat) :
  forall g g' m acc acc',
    trial_loop shuffle n g acc = Ok (acc', g') ->
    tallied m acc -> tallied (m + Z.of_nat n) acc'.
Proof.
  induction n as [| n IH]; intros g g' m acc acc' H Hacc.
  - simpl in H. injection H as <- _. rewrite Z.add_0_r. exact Hacc.
  - cbn [trial_loop] in H. bind_inv H. destruct a as [r g1].
    replace (m + Z.of_nat (S n)) with ((m + 1) + Z.of_nat n) by lia.
    apply (IH _ _ _ _ _ H). apply (tally_tallied g g1 r m acc Ha Hacc).
Qed.

End SimulationFacts.

Lemma tallied_start : tallied 0 ([], []).
Proof.
  unfold tallied; simpl. repeat split; try lia; try constructor.
Qed.

Section SimulationLoop.

Variable G : Type.
Variable shuffle : G -> list card -> list card * G.

Lemma run_simulation_loop_tallied (n_trials : Z) (g g' : G)
      (acc : list (string * Z) * list (string * list Z)) :
  run_simulation_loop shuffle n_trials g = Ok (acc, g') ->
  tallied (Z.max 0 n_trials) acc.
Proof.
  unfold run_simulation_loop. intros H.
  pose proof (trial_loop_tallied G shuffle _ _ _ 0 _ _ H tallied_start) as Ht.
  replace (Z.max 0 n_trials) with (0 + Z.of_nat (Z.to_nat n_trials)) by lia.
  exact Ht.
Qed.

(** X17. When the trial loop of [run_simulation] ends, the four
    [tricks_*] counters add up to the number of trials, so do the seven
    [og3_*] counters, and [akq_trump] <= [all_trump] <= the number of
    trials.  (A counter that is absent counts 0; [n_trials <= 0] runs no
    trial.) *)
Theorem simulation_counters (n_trials : Z) (g g' : G)
        (results : list (string * Z)) (payouts : list (string * list Z)) :
  run_simulation_loop shuffle n_trials g = Ok ((results, payouts), g') ->
  total tricks_labels results = Z.max 0 n_trials /\
  total og3_labels results = Z.max 0 n_trials /\
  0 <= get "akq_trump" 0 results <= get "all_trump" 0 results /\
  get "all_trump" 0 results <= Z.max 0 n_trials.
Proof.
  intros H. apply run_simulation_loop_tallied in H.
  destruct H as (T1 & T2 & T3 & T4 & _). simpl in *. auto.
Qed.

(** X18. When the trial loop of [run_simulation] ends, each of the payout
    lists [ante], [booray], [play], [og3] has one entry per trial, and the
    ante was lost (-1) in exactly as many trials as [tricks_0] counts. *)
Theorem simulation_payout_lists (n_trials : Z) (g g' : G)
        (results : list (string * Z)) (payouts : list (string * list Z)) :
  run_simulation_loop shuffle n_trials g = Ok ((results, payouts), g') ->
  (forall k, In k ["ante"; "booray"; "play"; "og3"] ->
             len (get k [] payouts) = Z.max 0 n_trials) /\
  Z.of_nat (count_occ Z.eq_dec (get "ante" [] payouts) (-1))
  = get "tricks_0" 0 results.
Proof.
  intros H. apply run_simulation_loop_tallied in H.
  destruct H as (_ & _ & _ & _ & T5 & T6 & _). simpl in *. auto.
Qed.

(** X19. When the trial loop of [run_simulation] ends, [results] has no key
    twice, every key is one of the 13 labels, and every counter present is
    at least 1: an outcome that never occurred has no entry. *)
Theorem simulation_labels (n_trials : Z) (g g' : G)
        (results : list (string * Z)) (payouts : list (string * list Z)) :
  run_simulation_loop shuffle n_trials g = Ok ((results, payouts), g') ->
  NoDup (map fst results) /\
  forall k v, In (k, v) results -> In k all_labels /\ 1 <= v.
Proof.
  intros H. apply run_simulation_loop_tallied in H.
  destruct H as (_ & _ & _ & _ & _ & _ & T7 & T8). simpl in *.
  split; [exact T7 |].
  intros k v Hin. rewrite Forall_forall in T8. apply (T8 (k, v) Hin).
Qed.

Hypothesis shuffle_perm : forall g l, Permutation (fst (shuffle g l)) l.

Lemma trial_loop_total (n : nat) :
  forall g acc, exists acc' g', trial_loop shuffle n g acc = Ok (acc', g').
Proof.
  induction n as [| n IH]; intros g acc; simpl; [eauto |].
  destruct (play_game_total G shuffle shuffle_perm g) as (r & g1 & ->).
  cbn [bind]. apply IH.
Qed.

(** X20. Under a generator that permutes, the trial loop of
    [run_simulation] runs to its end for every [n_trials]: no trial raises. *)
Theorem simulation_completes (n_trials : Z) (g : G) :
  exists results payouts g',
    run_simulation_loop shuffle n_trials g = Ok ((results, payouts), g').
Proof.
  unfold run_simulation_loop.
  destruct (trial_loop_total (Z.to_nat n_trials) g ([], []))
    as ([results payouts] & g' & H).
  exists results, payouts, g'. exact H.
Qed.

End SimulationLoop.

Lemma simulation_counters_witness :
  let results :=
    [("tricks_3", 1); ("og3_Mini Royal", 1); ("all_trump", 1); ("akq_trump", 1);
     ("tricks_0", 1); ("og3_Loss", 1); ("tricks_2", 1); ("og3_Trips", 1)] in
  total tricks_labels results = Z.max 0 3 /\
  total og3_labels results = Z.max 0 3 /\
  0 <= get "akq_trump" 0 results <= get "all_trump" 0 results /\
  get "all_trump" 0 results <= Z.max 0 3.
Proof.
  apply (simulation_counters
           (list (list card)) scripted_shuffle 3
           (royal_script ++ whitewash_script) []
           _ [("ante", [1; -1; 1]); ("booray", [500; -1; 0]);
              ("play", [2; -1; 1]); ("og3", [50; -1; 30])]).
  vm_compute; reflexivity.
Defined.

Lemma simulation_payout_lists_witness :
  let payouts := [("ante", [1; -1; 1]); ("booray", [500; -1; 0]);
                  ("play", [2; -1; 1]); ("og3", [50; -1; 30])] in
  let results :=
    [("tricks_3", 1); ("og3_Mini Royal", 1); ("all_trump", 1); ("akq_trump", 1);
     ("tricks_0", 1); ("og3_Loss", 1); ("tricks_2", 1); ("og3_Trips", 1)] in
  (forall k, In k ["ante"; "booray"; "play"; "og3"] ->
             len (get k [] payouts) = Z.max 0 3) /\
  Z.of_nat (count_occ Z.eq_dec (get "ante" [] payouts) (-1))
  = get "tricks_0" 0 results.
Proof.
  apply (simulation_payout_lists
           (list (list card)) scripted_shuffle 3
           (royal_script ++ whitewash_script) []).
  vm_compute; reflexivity.
Defined.

Lemma simulation_labels_witness :
  let results :=
    [("tricks_3", 1); ("og3_Mini Royal", 1); ("all_trump", 1); ("akq_trump", 1);
     ("tricks_0", 1); ("og3_Loss", 1); ("tricks_2", 1); ("og3_Trips", 1)] in
  NoDup (map fst results) /\
  forall k v, In (k, v) results -> In k all_labels /\ 1 <= v.
Proof.
  apply (simulation_labels
           (list (list card)) scripted_shuffle 3
           (royal_script ++ whitewash_script) []
           _ [("ante", [1; -1; 1]); ("booray", [500; -1; 0]);
              ("play", [2; -1; 1]); ("og3", [50; -1; 30])]).
  vm_compute; reflexivity.
Defined.

Lemma simulation_completes_witness :
  exists results payouts g',
    run_simulation_loop scripted_shuffle 3 (royal_script ++ whitewash_script)
    = Ok ((results, payouts), g').
Proof.
  exact (simulation_completes (list (list card)) scripted_shuffle
                              scripted_shuffle_perm 3
                              (royal_script ++ whitewash_script)).
Defined.
